(** * DFU assistant: the conversation engine of [src/extension.ts]

    A shallow embedding of the chat participant: the session object and
    the table that keeps it between turns, the three slash commands, the
    free-text conversation flow, the workspace analysis and the code
    generation request.  Every [stream.markdown] call of the source is an
    append to the turn's output, every [await] on the editor host is a
    call into a [Host] record whose answer can be a value or a throw, and
    the session object is mutated in place: what a handler wrote before a
    throw stays written.  One request is handled to its end before the
    next one starts.

    The repository keeps a second variant of the extension, without the
    MotionWise configuration step; the lookup of the session,
    the alternative step and the code generation are the same text in
    both, and are embedded once. *)

From stdpp Require Import gmap strings list.
From Stdlib Require Import String Ascii ZArith DecimalString.

Open Scope string_scope.
Open Scope Z_scope.

(** ** Strings of the JavaScript runtime *)

(** [String.prototype.trim], [toLowerCase] and [toUpperCase] belong to
    the runtime, not to the extension.  The engine is written against
    this interface, so that what is proved of it holds for whatever the
    runtime does on text outside the ASCII range. *)
Class JsStringOps : Type := {
  trim : string -> string;
  toLowerCase : string -> string;
  toUpperCase : string -> string
}.

Module AsciiOps.

Definition is_space (c : ascii) : bool :=
  let n := nat_of_ascii c in
  ((9 <=? n)%nat && (n <=? 13)%nat) || (n =? 32)%nat.

Fixpoint trim_start (s : string) : string :=
  match s with
  | String c s' => if is_space c then trim_start s' else s
  | EmptyString => EmptyString
  end.

(** Drops the white space at the end: a character is kept when it is
    not a space or when something is kept after it. *)
Fixpoint trim_end (s : string) : string :=
  match s with
  | String c s' =>
      match trim_end s' with
      | EmptyString => if is_space c then EmptyString else String c EmptyString
      | rest => String c rest
      end
  | EmptyString => EmptyString
  end.

Definition lower_char (c : ascii) : ascii :=
  let n := nat_of_ascii c in
  if ((65 <=? n)%nat && (n <=? 90)%nat) then ascii_of_nat (n + 32) else c.

Definition upper_char (c : ascii) : ascii :=
  let n := nat_of_ascii c in
  if ((97 <=? n)%nat && (n <=? 122)%nat) then ascii_of_nat (n - 32) else c.

Fixpoint map_chars (f : ascii -> ascii) (s : string) : string :=
  match s with
  | String c s' => String (f c) (map_chars f s')
  | EmptyString => EmptyString
  end.

(** The runtime's operations as they act on ASCII text.  On other text
    the runtime does more ([trim] also drops U+00A0, U+FEFF, U+2028 and
    the like, and the case maps cover letters outside A-Z): the runs
    below use this instance on ASCII text only, and every general theorem
    is stated for any [JsStringOps]. *)
Definition ops : JsStringOps := {|
  trim := fun s => trim_end (trim_start s);
  toLowerCase := map_chars lower_char;
  toUpperCase := map_chars upper_char
|}.

End AsciiOps.

Definition nl : string := String "010"%char EmptyString.
Definition dq : string := String "034"%char EmptyString.

(** The lines of a template literal, joined by line feeds. *)
Definition lines (l : list string) : string := String.concat nl l.

(** [text.includes(needle)] *)
Fixpoint includes (text needle : string) : bool :=
  String.prefix needle text ||
  match text with
  | String _ rest => includes rest needle
  | EmptyString => false
  end.

(** A number in a template literal. *)
Definition show_nat (n : nat) : string := NilEmpty.string_of_uint (Nat.to_uint n).

(** ** Values read out of object literals

    [configMap] and [MOTIONWISE_PATHS] are plain object literals.  Reading
    [obj[key]] finds the object's own entries and, failing that, the
    members every object inherits from [Object.prototype]; those are
    functions (and the prototype object itself under [__proto__]), never
    strings, and all of them are truthy. *)
Inductive JsVal : Type :=
| JStr (s : string)
| JInherited (member : string).

Definition object_prototype : list string :=
  [ "constructor"; "__defineGetter__"; "__defineSetter__"; "hasOwnProperty";
    "__lookupGetter__"; "__lookupSetter__"; "isPrototypeOf";
    "propertyIsEnumerable"; "toString"; "valueOf"; "__proto__";
    "toLocaleString" ].

Fixpoint own_property (own : list (string * string)) (key : string) : option string :=
  match own with
  | (k, v) :: rest => if (k =? key)%string then Some v else own_property rest key
  | [] => None
  end.

(** [obj[key]]; [None] is [undefined]. *)
Definition get_property (own : list (string * string)) (key : string) : option JsVal :=
  match own_property own key with
  | Some v => Some (JStr v)
  | None =>
      if existsb (String.eqb key) object_prototype
      then Some (JInherited key) else None
  end.

Definition truthy (v : option JsVal) : bool :=
  match v with
  | Some (JStr s) => negb (s =? EmptyString)%string
  | Some (JInherited _) => true
  | None => false
  end.

(** [String(v)], which is also the property key [v] stands for. *)
Definition js_to_string (v : JsVal) : string :=
  match v with
  | JStr s => s
  | JInherited m =>
      if (m =? "__proto__")%string then "[object Object]"
      else if (m =? "constructor")%string then "function Object() { [native code] }"
      else "function " +:+ m +:+ "() { [native code] }"
  end.

(** An optional value in a template literal. *)
Definition show_opt {A : Type} (show : A -> string) (v : option A) : string :=
  match v with
  | Some a => show a
  | None => "undefined"
  end.

(** ** Types and interfaces *)

Inductive Step : Type :=
| initial | config | memory | dataset | alternative | complete.

Inductive Platform : Type := posix | autosar.

Definition platform_name (p : Platform) : string :=
  match p with
  | posix => "posix"
  | autosar => "autosar"
  end.

Inductive MotionWiseConfig : Type :=
| cp_rdb2 | cp_rdb3 | sv62 | s324sdv | ch63_2 | generic | unknown.

Definition config_name (c : MotionWiseConfig) : string :=
  match c with
  | cp_rdb2 => "cp-rdb2"
  | cp_rdb3 => "cp-rdb3"
  | sv62 => "sv62"
  | s324sdv => "s324sdv"
  | ch63_2 => "ch63_2"
  | generic => "generic"
  | unknown => "unknown"
  end.

(** Conversation state for multi-turn interactions.  [motionwiseConfig]
    is declared as a [MotionWiseConfig], but the flow stores the user's
    text in it after a cast, so it holds whatever value was accepted. *)
Record ConversationState : Type := {
  step : Step;
  platform : option Platform;
  motionwiseConfig : option JsVal;
  integrationPath : option JsVal;
  memoryFunction : option string;
  datasetFunction : option string;
  alternativeFunction : option string
}.

(** Workspace analysis results *)
Record WorkspaceAnalysis : Type := {
  detectedPlatform : option Platform;
  detectedMotionWiseConfig : option MotionWiseConfig;
  memoryFunctions : list string;
  datasetFunctions : list string;
  existingIntegrationFiles : list string
}.

#[global] Instance Step_eq_dec : EqDecision Step.
Proof. solve_decision. Defined.
#[global] Instance Platform_eq_dec : EqDecision Platform.
Proof. solve_decision. Defined.
#[global] Instance MotionWiseConfig_eq_dec : EqDecision MotionWiseConfig.
Proof. solve_decision. Defined.
#[global] Instance JsVal_eq_dec : EqDecision JsVal.
Proof. solve_decision. Defined.
#[global] Instance ConversationState_eq_dec : EqDecision ConversationState.
Proof. solve_decision. Defined.

(** [{ step: 'initial' }] *)
Definition fresh_state : ConversationState := {|
  step := initial;
  platform := None;
  motionwiseConfig := None;
  integrationPath := None;
  memoryFunction := None;
  datasetFunction := None;
  alternativeFunction := None
|}.

(** Assignments to the fields of the session object. *)
Definition set_step (v : Step) (s : ConversationState) : ConversationState :=
  {| step := v; platform := platform s; motionwiseConfig := motionwiseConfig s;
     integrationPath := integrationPath s; memoryFunction := memoryFunction s;
     datasetFunction := datasetFunction s;
     alternativeFunction := alternativeFunction s |}.

Definition set_platform (v : Platform) (s : ConversationState) : ConversationState :=
  {| step := step s; platform := Some v; motionwiseConfig := motionwiseConfig s;
     integrationPath := integrationPath s; memoryFunction := memoryFunction s;
     datasetFunction := datasetFunction s;
     alternativeFunction := alternativeFunction s |}.

Definition set_motionwiseConfig (v : JsVal) (s : ConversationState) : ConversationState :=
  {| step := step s; platform := platform s; motionwiseConfig := Some v;
     integrationPath := integrationPath s; memoryFunction := memoryFunction s;
     datasetFunction := datasetFunction s;
     alternativeFunction := alternativeFunction s |}.

(** The right-hand side can be [undefined]: the field is then present and
    holds no value, which reads back like an absent one. *)
Definition set_integrationPath (v : option JsVal) (s : ConversationState) : ConversationState :=
  {| step := step s; platform := platform s; motionwiseConfig := motionwiseConfig s;
     integrationPath := v; memoryFunction := memoryFunction s;
     datasetFunction := datasetFunction s;
     alternativeFunction := alternativeFunction s |}.

Definition set_memoryFunction (v : string) (s : ConversationState) : ConversationState :=
  {| step := step s; platform := platform s; motionwiseConfig := motionwiseConfig s;
     integrationPath := integrationPath s; memoryFunction := Some v;
     datasetFunction := datasetFunction s;
     alternativeFunction := alternativeFunction s |}.

Definition set_datasetFunction (v : string) (s : ConversationState) : ConversationState :=
  {| step := step s; platform := platform s; motionwiseConfig := motionwiseConfig s;
     integrationPath := integrationPath s; memoryFunction := memoryFunction s;
     datasetFunction := Some v;
     alternativeFunction := alternativeFunction s |}.

Definition set_alternativeFunction (v : string) (s : ConversationState) : ConversationState :=
  {| step := step s; platform := platform s; motionwiseConfig := motionwiseConfig s;
     integrationPath := integrationPath s; memoryFunction := memoryFunction s;
     datasetFunction := datasetFunction s;
     alternativeFunction := Some v |}.

(** ** DFU knowledge base *)

Definition DFU_KNOWLEDGE : string := lines [
  "# DFU (Development Feature Unlocking) Overview";
  EmptyString;
  "## What is DFU/DMIU?";
  EmptyString;
  "DFU (Development Feature Unlocking Service), also known as DMIU (Development Mode Initialization Unit), enables different debug levels:";
  "- **Debug Level 1** - Basic debugging features";
  "- **Debug Level 2** - Advanced debugging features  ";
  "- **Safe Level** - Production mode (no debug features)";
  EmptyString;
  "## Architecture";
  EmptyString;
  "- **Core (1200-Core)**: Platform-agnostic logic (common for all configurations)";
  "- **Integration Layer**: Platform-specific handwritten code";
  EmptyString;
  "## Initialization";
  EmptyString;
  "Call `DMIU_Initialize(config_struct)` where config has three attributes:";
  "1. **target_memory**: Pointer to struct with two uint32 (MagicFlagA, MagicFlagB)";
  "2. **dataset_read_func**: Function to load from persistent storage";
  "3. **debug_level_override_func**: Alternative source with OR logic";
  EmptyString;
  "## Platform-Specific Initialization";
  EmptyString;
  "- **AUTOSAR**: Call from PreOS.c startup sequence";
  "- **POSIX**: Run dmiu daemon, main() from integration layer";
  EmptyString;
  "## Client API";
  EmptyString;
  "```c";
  "#include " +:+ dq +:+ "Debug_Mode.h" +:+ dq;
  "if (Dmiu_IsDebugLevel1Active()) { /* basic debug */ }";
  "if (Dmiu_IsDebugLevel2Active()) { /* advanced debug */ }";
  "// If neither active → Safe Level (production)";
  "```";
  EmptyString;
  "## Magic Flag Values";
  EmptyString;
  "```c";
  "// DEBUG_LEVEL_SAFE: 0x00000000, 0x00000000";
  "// DEBUG_LEVEL_1:    0xDEB00001, 0xDEB00001";
  "// DEBUG_LEVEL_2:    0xDEB00002, 0xDEB00002";
  "```";
  EmptyString ].

Definition MOTIONWISE_CONTEXT : string := lines [
  "## MotionWise Platform Architecture";
  EmptyString;
  "### Build System";
  "- MotionWise uses **BAZEL** as build system";
  "- Top level build file: `1500-build/BUILD.bazel`";
  "- Uses GENIE framework for code generation (" +:+ dq +:+ "wishes" +:+ dq +:+ ")";
  "- Close to 200 git repositories";
  EmptyString;
  "### Repository Structure";
  "- **1200-Core**: Platform-agnostic services (common for all)";
  "- **1900-sysdef**: Manual configuration input (CP, s324sdv, SV62)";
  "- **1700-Configuration**: Generated configuration output";
  "- **1800-EcuIntegration** or **1710-handwritten-config**: Handwritten platform-specific code";
  EmptyString;
  "### DMIU Integration Paths by Configuration";
  EmptyString;
  "| Configuration | Board | Integration Path |";
  "|--------------|-------|------------------|";
  "| CP | RDB2 | `1800-EcuIntegration/RDB2/1800-ecu-int-rdb2-cp-a/core/development/dmiu` |";
  "| CP | RDB3 | `1800-EcuIntegration/RDB3/1800-ecu-int-rdb3-cp-a/core/development/dmiu` |";
  "| SV62 (HCP2MEJ) | RDB2 | `1700-Configuration/RDB2/1710-handwritten-config-sv62/core/development/dmiu` |";
  "| s324sdv (SDV) | RDB2 | `1700-Configuration/RDB2/1710-handwritten-config-s324sdv/core/development/dmiu` |";
  "| CH63_2 | - | `configs/projects/CH63_2/deployments/1710-handwritten-config-ch63_2/core/development/dmiu` |";
  EmptyString;
  "**Note:** s324sdv has two ECU configurations (corner case).";
  EmptyString ].

(** Integration path mapping for MotionWise configs *)
Definition MOTIONWISE_PATHS : list (string * string) := [
  ("cp-rdb2", "1800-EcuIntegration/RDB2/1800-ecu-int-rdb2-cp-a/core/development/dmiu");
  ("cp-rdb3", "1800-EcuIntegration/RDB3/1800-ecu-int-rdb3-cp-a/core/development/dmiu");
  ("sv62", "1700-Configuration/RDB2/1710-handwritten-config-sv62/core/development/dmiu");
  ("s324sdv", "1700-Configuration/RDB2/1710-handwritten-config-s324sdv/core/development/dmiu");
  ("ch63_2", "configs/projects/CH63_2/deployments/1710-handwritten-config-ch63_2/core/development/dmiu");
  ("generic", "1800-EcuIntegration/[PLATFORM]/core/development/dmiu");
  ("unknown", "1800-EcuIntegration/[PLATFORM]/core/development/dmiu") ].

(** ** The editor host

    What the extension awaits: file search and file reads of the
    workspace, and the language model service.  Each answer is a value
    or a throw; a thrown value is kept as the message the top-level
    handler prints for it. *)
Inductive Result (A : Type) : Type :=
| Ok (a : A)
| Throw (message : string).
Arguments Ok {A} a.
Arguments Throw {A} message.

Notation "'try!' x ':=' e 'in' k" :=
  (match e with Ok x => k | Throw m => Throw m end)
  (at level 10, x name, e at level 100, k at level 200, only parsing).

Record CancellationToken : Type := { isCancellationRequested : bool }.

(** The stream of a model response: the chunks it yields, then the end
    of the stream or a throw. *)
Record ChatResponse : Type := {
  text : list string;
  text_failure : option string
}.

Record LanguageModel : Type := {
  sendRequest : list string -> CancellationToken -> Result ChatResponse
}.

Record Host : Type := {
  (** [vscode.workspace.findFiles(include, exclude, maxResults)] *)
  findFiles : string -> string -> nat -> Result (list string);
  asRelativePath : string -> string;
  (** [vscode.workspace.fs.readFile], decoded as UTF-8 *)
  readFile : string -> Result string;
  (** [vscode.lm.selectChatModels({ vendor: 'copilot', family: 'gpt-4o' })];
      [Ok None] is an [undefined] answer *)
  selectChatModels : Result (option (list LanguageModel))
}.

Record ChatRequest : Type := {
  command : option string;
  prompt : string
}.

(** ** Workspace analysis *)

Definition configPatterns : list (string * MotionWiseConfig) := [
  ("**/1800-ecu-int-rdb2-cp-a/**", cp_rdb2);
  ("**/1800-ecu-int-rdb3-cp-a/**", cp_rdb3);
  ("**/1710-handwritten-config-sv62/**", sv62);
  ("**/1710-handwritten-config-s324sdv/**", s324sdv);
  ("**/1710-handwritten-config-ch63_2/**", ch63_2) ].

(** The loop over [configPatterns], which stops at the first pattern
    that finds a file. *)
Fixpoint detect_config (host : Host) (patterns : list (string * MotionWiseConfig))
  : Result (option MotionWiseConfig) :=
  match patterns with
  | [] => Ok None
  | (pattern, cfg) :: rest =>
      try! files := findFiles host pattern "**/node_modules/**" 1%nat in
      if (0 <? List.length files)%nat then Ok (Some cfg) else detect_config host rest
  end.

(** The loop over [posixFiles], which stops at the first file that holds
    a marker. *)
Fixpoint detect_platform (host : Host) (files : list string) : Result (option Platform) :=
  match files with
  | [] => Ok None
  | file :: rest =>
      try! content := readFile host file in
      if includes content "PFSW_BUILD_OS_POSIX" || includes content "ShmM"
      then Ok (Some posix) else detect_platform host rest
  end.

Definition list_includes (l : list string) (x : string) : bool :=
  existsb (String.eqb x) l.

(** The loop over the header files, with the two lists it pushes to. *)
Fixpoint find_functions (host : Host) (files : list string)
  (memoryFns datasetFns : list string) : Result (list string * list string) :=
  match files with
  | [] => Ok (memoryFns, datasetFns)
  | file :: rest =>
      try! content := readFile host file in
      let memoryFns :=
        if includes content "ShmM_MapOwner" && negb (list_includes memoryFns "ShmM_MapOwner")
        then (memoryFns ++ ["ShmM_MapOwner"])%list else memoryFns in
      let datasetFns :=
        if includes content "Per_DS_Read" && negb (list_includes datasetFns "Per_DS_ReadDSElementDMIU")
        then (datasetFns ++ ["Per_DS_ReadDSElementDMIU"])%list else datasetFns in
      find_functions host rest memoryFns datasetFns
  end.

Definition analyzeWorkspace (host : Host) : Result WorkspaceAnalysis :=
  try! integrationFiles :=
    findFiles host "**/1800-EcuIntegration/**/dmiu/**/*.{c,h}" "**/node_modules/**" 10%nat in
  let existing := map (asRelativePath host) integrationFiles in
  try! detectedConfig := detect_config host configPatterns in
  try! posixFiles := findFiles host "**/main.c" "**/node_modules/**" 5%nat in
  try! detected := detect_platform host posixFiles in
  try! headerFiles := findFiles host "**/*.h" "**/node_modules/**" 100%nat in
  try! fns := find_functions host (take 50 headerFiles) [] [] in
  Ok {| detectedPlatform := detected;
        detectedMotionWiseConfig := detectedConfig;
        memoryFunctions := fst fns;
        datasetFunctions := snd fns;
        existingIntegrationFiles := existing |}.

(** ** One turn: the session object and the response stream

    A handler runs on the session object of the conversation and on the
    response stream.  Both are updated in place, so a handler that throws
    leaves behind what it had written until then: the state comes back
    next to the result, also for [Throw]. *)
Record Turn : Type := {
  session : ConversationState;
  stream : list string
}.

Definition Act (A : Type) : Type := Turn -> Turn * Result A.

Definition ret {A : Type} (a : A) : Act A := fun t => (t, Ok a).

Definition bind {A B : Type} (c : Act A) (k : A -> Act B) : Act B :=
  fun t =>
    match c t with
    | (t', Ok a) => k a t'
    | (t', Throw m) => (t', Throw m)
    end.

(** [stream.markdown(s)] *)
Definition markdown (s : string) : Act unit :=
  fun t => ({| session := session t; stream := (stream t ++ [s])%list |}, Ok tt).

(** [state.field = v] *)
Definition assign (f : ConversationState -> ConversationState) : Act unit :=
  fun t => ({| session := f (session t); stream := stream t |}, Ok tt).

(** [state.field] *)
Definition read {A : Type} (f : ConversationState -> A) : Act A :=
  fun t => (t, Ok (f (session t))).

(** [await] of an answer of the host *)
Definition await {A : Type} (r : Result A) : Act A := fun t => (t, r).

Declare Scope act_scope.
Delimit Scope act_scope with act.
Bind Scope act_scope with Act.
Notation "x <- c1 ;; c2" := (bind c1 (fun x => c2))
  (at level 100, c1 at next level, c2 at level 200, right associativity) : act_scope.
Notation "c1 ;; c2" := (bind c1 (fun _ => c2))
  (at level 100, c2 at level 200, right associativity) : act_scope.
Open Scope act_scope.

Section Engine.

Context `{JsStringOps}.

(** ** Code generation *)

Definition buildCodeGenerationPrompt (state : ConversationState) : string := lines [
  "Generate complete DMIU integration for "
    +:+ show_opt (fun p => toUpperCase (platform_name p)) (platform state) +:+ " platform.";
  EmptyString;
  "Configuration:";
  "- Platform: " +:+ show_opt platform_name (platform state);
  "- Memory: " +:+ show_opt id (memoryFunction state);
  "- Dataset: " +:+ show_opt id (datasetFunction state);
  "- Alternative: " +:+ show_opt id (alternativeFunction state);
  EmptyString;
  "Generate these files with TTTech Auto copyright (2025), MISRA justifications, Doxygen docs:";
  EmptyString;
  "1. **dmiu_integration.h** - Header with function declarations";
  "2. **dmiu_integration.c** - Implementation with adapters for user's functions";
  if decide (platform state = Some posix)
  then "3. **main.c** - POSIX daemon entry point" else EmptyString;
  EmptyString;
  "Create adapter functions if user's functions don't match required signatures:";
  "- Memory adapter: Cast/wrap to return Dt_RECORD_DebugUnlockingStruct_DMIU*";
  "- Dataset adapter: Convert return type to magic flags (0xDEB00001/0xDEB00002/0x00000000)";
  "- Alternative adapter: Convert to e_Dmiu_Debug_Level with OR logic";
  EmptyString;
  "Show complete, compilable code for each file." ].

(** [for await (const chunk of response.text) stream.markdown(chunk)] *)
Fixpoint forward_chunks (chunks : list string) (failure : option string) : Act unit :=
  match chunks with
  | chunk :: rest => markdown chunk ;; forward_chunks rest failure
  | [] =>
      match failure with
      | Some m => await (Throw m)
      | None => ret tt
      end
  end.

(** The fallback line printed when no model is there. *)
Definition config_summary (state : ConversationState) : string :=
  "Config: Platform=" +:+ show_opt platform_name (platform state)
    +:+ ", Memory=" +:+ show_opt id (memoryFunction state)
    +:+ ", Dataset=" +:+ show_opt id (datasetFunction state)
    +:+ ", Alt=" +:+ show_opt id (alternativeFunction state) +:+ nl.

Definition generateIntegrationCode (host : Host) (token : CancellationToken) : Act unit :=
  prompt <- read buildCodeGenerationPrompt ;;
  models <- await (selectChatModels host) ;;
  match models with
  | None | Some [] =>
      markdown ("⚠️ Language Model not available" +:+ nl +:+ nl) ;;
      summary <- read config_summary ;;
      markdown summary
  | Some (model :: _) =>
      response <- await (sendRequest model [DFU_KNOWLEDGE; prompt] token) ;;
      forward_chunks (text response) (text_failure response)
  end.

(** ** Command handlers *)

(** [analysis.memoryFunctions.forEach((fn, i) => ...)] *)
Fixpoint list_functions (i : nat) (fns : list string) : Act unit :=
  match fns with
  | fn :: rest =>
      markdown (show_nat (i + 1) +:+ ". `" +:+ fn +:+ "`" +:+ nl) ;;
      list_functions (S i) rest
  | [] => ret tt
  end.

Definition handleIntegrateCommand (host : Host) (request : ChatRequest)
  (token : CancellationToken) : Act unit :=
  let input := toLowerCase (trim (prompt request)) in
  if negb (input =? "posix")%string && negb (input =? "autosar")%string
     && negb (input =? "motionwise")%string
  then
    markdown ("## DFU Integration" +:+ nl +:+ nl) ;;
    markdown ("Please specify platform:" +:+ nl +:+ nl) ;;
    markdown ("- `posix` - Generic POSIX platform" +:+ nl) ;;
    markdown ("- `autosar` - Generic AUTOSAR platform" +:+ nl) ;;
    markdown ("- `motionwise` - MotionWise platform (auto-detects configuration)" +:+ nl +:+ nl) ;;
    markdown ("**Example:** `@dfu /integrate motionwise`" +:+ nl)
  else
    assign (set_platform
              (if (input =? "posix")%string then posix
               else if (input =? "autosar")%string then autosar
               else posix)) ;;
    analysis <- await (analyzeWorkspace host) ;;
    markdown ("## Starting " +:+ toUpperCase input +:+ " Integration" +:+ nl +:+ nl) ;;
    (* [false] stands for the early return of the branch that asks for
       the configuration *)
    continue <-
      (if (input =? "motionwise")%string then
         markdown (MOTIONWISE_CONTEXT +:+ nl +:+ nl) ;;
         (* [analysis.detectedMotionWiseConfig &&
             analysis.detectedMotionWiseConfig !== 'unknown'] *)
         match (match detectedMotionWiseConfig analysis with
                | Some unknown | None => None
                | Some detected => Some detected
                end) with
         | Some detected =>
             assign (set_motionwiseConfig (JStr (config_name detected))) ;;
             assign (set_integrationPath
                       (get_property MOTIONWISE_PATHS (config_name detected))) ;;
             markdown ("✅ Detected configuration: **"
                         +:+ toUpperCase (config_name detected) +:+ "**" +:+ nl) ;;
             path <- read integrationPath ;;
             markdown ("📁 Integration path: `" +:+ show_opt js_to_string path
                         +:+ "`" +:+ nl +:+ nl) ;;
             assign (set_step memory) ;;
             ret true
         | None =>
             markdown ("### Which MotionWise configuration are you using?" +:+ nl +:+ nl) ;;
             markdown ("Available configurations:" +:+ nl) ;;
             markdown ("1. `cp-rdb2` - CP on RDB2 board" +:+ nl) ;;
             markdown ("2. `cp-rdb3` - CP on RDB3 board" +:+ nl) ;;
             markdown ("3. `sv62` - SV62 (HCP2MEJ) on RDB2" +:+ nl) ;;
             markdown ("4. `s324sdv` - s324sdv (SDV) on RDB2" +:+ nl) ;;
             markdown ("5. `ch63_2` - CH63_2 configuration" +:+ nl) ;;
             markdown ("6. `generic` - Generic/custom configuration" +:+ nl +:+ nl) ;;
             markdown ("💬 **Reply with configuration name** (e.g., " +:+ dq +:+ "cp-rdb2"
                         +:+ dq +:+ ")" +:+ nl) ;;
             assign (set_step config) ;;
             ret false
         end
       else
         assign (set_step memory) ;;
         assign (set_integrationPath
                   (Some (JStr "1800-EcuIntegration/[PLATFORM]/core/development/dmiu"))) ;;
         ret true) ;;
    if continue : bool then
      markdown ("### Files to be created:" +:+ nl +:+ nl) ;;
      markdown ("```" +:+ nl) ;;
      path <- read integrationPath ;;
      markdown (show_opt js_to_string path +:+ "/" +:+ nl) ;;
      markdown ("├── api/dmiu_integration.h" +:+ nl) ;;
      markdown ("└── src/" +:+ nl) ;;
      markdown ("    ├── dmiu_integration.c" +:+ nl) ;;
      platform_now <- read platform ;;
      (if decide (platform_now = Some posix)
       then markdown ("    └── main.c" +:+ nl) else ret tt) ;;
      markdown ("```" +:+ nl +:+ nl) ;;
      markdown ("### Step 1/3: Memory Allocation" +:+ nl +:+ nl) ;;
      markdown ("Which function should I use for memory allocation?" +:+ nl +:+ nl) ;;
      (if (0 <? List.length (memoryFunctions analysis))%nat then
         markdown ("**Found in workspace:**" +:+ nl) ;;
         list_functions 0 (memoryFunctions analysis) ;;
         markdown nl
       else ret tt) ;;
      markdown ("**Options:**" +:+ nl) ;;
      platform_now <- read platform ;;
      (if decide (platform_now = Some posix)
       then markdown ("- `ShmM_MapOwner` - Shared memory (recommended)" +:+ nl)
       else ret tt) ;;
      markdown ("- `static` - Static global variable" +:+ nl) ;;
      markdown ("- Or provide your custom function name" +:+ nl +:+ nl) ;;
      markdown ("💬 **Just reply with your choice**" +:+ nl)
    else ret tt.

(** [analysis.existingIntegrationFiles.forEach(file => ...)] *)
Fixpoint list_files (files : list string) : Act unit :=
  match files with
  | file :: rest => markdown ("✅ " +:+ file +:+ nl) ;; list_files rest
  | [] => ret tt
  end.

Definition handleValidateCommand (host : Host) (token : CancellationToken) : Act unit :=
  analysis <- await (analyzeWorkspace host) ;;
  markdown ("## DMIU Integration Validation" +:+ nl +:+ nl) ;;
  if (List.length (existingIntegrationFiles analysis) =? 0)%nat then
    markdown ("❌ No integration files found" +:+ nl +:+ nl) ;;
    markdown ("Run `@dfu /integrate posix` or `@dfu /integrate autosar` to start." +:+ nl)
  else
    markdown ("### Found Integration Files:" +:+ nl +:+ nl) ;;
    list_files (existingIntegrationFiles analysis).

Definition handleAdapterCommand (request : ChatRequest) (token : CancellationToken)
  : Act unit :=
  let functionName := trim (prompt request) in
  if (functionName =? EmptyString)%string then
    markdown ("Please provide a function name." +:+ nl +:+ nl) ;;
    markdown ("**Example:** `@dfu /adapter MyDatasetFunction`" +:+ nl)
  else
    markdown ("## Generating Adapter for `" +:+ functionName +:+ "`" +:+ nl +:+ nl) ;;
    markdown ("What does this function return?" +:+ nl +:+ nl) ;;
    markdown ("- String (e.g., " +:+ dq +:+ "debug_level_2" +:+ dq +:+ ")" +:+ nl) ;;
    markdown ("- Integer (0/1/2)" +:+ nl) ;;
    markdown ("- Boolean" +:+ nl) ;;
    markdown ("- Compatible type" +:+ nl).

Definition configMap : list (string * string) := [
  ("1", "cp-rdb2");
  ("2", "cp-rdb3");
  ("3", "sv62");
  ("4", "s324sdv");
  ("5", "ch63_2");
  ("6", "generic") ].

(** [configMap[userMessage] || userMessage.toLowerCase()] *)
Definition selectedConfig (userMessage : string) : JsVal :=
  match get_property configMap userMessage with
  | Some v => if truthy (Some v) then v else JStr (toLowerCase userMessage)
  | None => JStr (toLowerCase userMessage)
  end.

(** [selectedConfig && MOTIONWISE_PATHS[selectedConfig]] *)
Definition config_accepted (userMessage : string) : bool :=
  truthy (Some (selectedConfig userMessage))
  && truthy (get_property MOTIONWISE_PATHS (js_to_string (selectedConfig userMessage))).

(** Every [if (state.step === ...)] block of the source ends with
    [return], so the chain of tests is a case distinction on the step
    the session holds when the handler starts; at [complete] no block is
    entered. *)
Definition handleConversationFlow (host : Host) (request : ChatRequest)
  (token : CancellationToken) : Act unit :=
  let userMessage := trim (prompt request) in
  current <- read step ;;
  match current with
  | initial =>
      markdown DFU_KNOWLEDGE ;;
      markdown (nl +:+ nl +:+ "💡 **Get started:** `@dfu /integrate posix` or `@dfu /integrate autosar` or `@dfu /integrate motionwise`" +:+ nl)
  | config =>
      if config_accepted userMessage then
        assign (set_motionwiseConfig (selectedConfig userMessage)) ;;
        assign (set_integrationPath
                  (get_property MOTIONWISE_PATHS (js_to_string (selectedConfig userMessage)))) ;;
        assign (set_step memory) ;;
        markdown ("✅ Configuration: **" +:+ js_to_string (selectedConfig userMessage)
                    +:+ "**" +:+ nl +:+ nl) ;;
        path <- read integrationPath ;;
        markdown ("📁 Integration path: `" +:+ show_opt js_to_string path
                    +:+ "`" +:+ nl +:+ nl) ;;
        markdown ("### Step 1/3: Memory Management" +:+ nl +:+ nl) ;;
        markdown ("Which function provides memory pointer?" +:+ nl +:+ nl) ;;
        markdown ("Requirements:" +:+ nl) ;;
        markdown ("- Returns void* to memory region" +:+ nl) ;;
        markdown ("- Persistent memory for DMIU config" +:+ nl) ;;
        markdown ("- Compatible type" +:+ nl +:+ nl) ;;
        markdown ("💬 **Reply with function name**" +:+ nl)
      else
        markdown ("❌ Invalid configuration. Please choose 1-6 or type the config name." +:+ nl)
  | memory =>
      assign (set_memoryFunction userMessage) ;;
      assign (set_step dataset) ;;
      markdown ("✅ Memory: `" +:+ userMessage +:+ "`" +:+ nl +:+ nl) ;;
      markdown ("### Step 2/3: Dataset Loading" +:+ nl +:+ nl) ;;
      markdown ("Which function loads debug configuration?" +:+ nl +:+ nl) ;;
      markdown ("Provide function name or describe what it returns:" +:+ nl) ;;
      markdown ("- String (" +:+ dq +:+ "debug_level_1" +:+ dq +:+ ", " +:+ dq
                  +:+ "debug_level_2" +:+ dq +:+ ", " +:+ dq +:+ "safe" +:+ dq +:+ ")" +:+ nl) ;;
      markdown ("- Integer (0=safe, 1=level1, 2=level2)" +:+ nl) ;;
      markdown ("- Compatible signature" +:+ nl +:+ nl) ;;
      markdown ("💬 **Reply with function name or description**" +:+ nl)
  | dataset =>
      assign (set_datasetFunction userMessage) ;;
      assign (set_step alternative) ;;
      markdown ("✅ Dataset: `" +:+ userMessage +:+ "`" +:+ nl +:+ nl) ;;
      markdown ("### Step 3/3: Alternative Load" +:+ nl +:+ nl) ;;
      markdown ("Which function provides alternative debug level?" +:+ nl +:+ nl) ;;
      markdown ("Options:" +:+ nl) ;;
      markdown ("- Function name (if you have one)" +:+ nl) ;;
      markdown ("- `none` (stub returning SAFE)" +:+ nl +:+ nl) ;;
      markdown ("💬 **Reply with function name or " +:+ dq +:+ "none" +:+ dq +:+ "**" +:+ nl)
  | alternative =>
      assign (set_alternativeFunction userMessage) ;;
      assign (set_step complete) ;;
      markdown ("✅ Alternative: `" +:+ userMessage +:+ "`" +:+ nl +:+ nl) ;;
      markdown ("## Generating Integration Files..." +:+ nl +:+ nl) ;;
      generateIntegrationCode host token ;;
      markdown (nl +:+ nl +:+ "✅ **Integration complete!**" +:+ nl +:+ nl) ;;
      markdown ("Next steps:" +:+ nl) ;;
      markdown ("1. Review generated files" +:+ nl) ;;
      markdown ("2. Compile and test" +:+ nl) ;;
      markdown ("3. Use `@dfu /validate` to check" +:+ nl) ;;
      assign (set_step initial)
  | complete => ret tt
  end.

(** ** Activation: the chat participant *)

(** [try { c } catch (error) { handler(error) }] *)
Definition try_catch (c : Act unit) (handler : string -> Act unit) : Act unit :=
  fun t =>
    match c t with
    | (t', Ok a) => (t', Ok a)
    | (t', Throw m) => handler m t'
    end.

(** [request.command === name]; a request without a slash command has
    none. *)
Definition command_is (name : string) (request : ChatRequest) : bool :=
  match command request with
  | Some c => (c =? name)%string
  | None => false
  end.

(** The body of the request handler, from the [try] on. *)
Definition handle_request (host : Host) (request : ChatRequest)
  (token : CancellationToken) : Act unit :=
  try_catch
    (if command_is "integrate" request then handleIntegrateCommand host request token
     else if command_is "validate" request then handleValidateCommand host token
     else if command_is "adapter" request then handleAdapterCommand request token
     else handleConversationFlow host request token)
    (fun message => markdown (nl +:+ nl +:+ "❌ Error: " +:+ message +:+ nl)).

(** The participant's memory: the session objects that exist, by
    identity, and [conversationStates], which maps a history length to
    one of them.  Two keys can hold the same object. *)
Record Participant : Type := {
  objects : list ConversationState;
  conversationStates : gmap Z nat
}.

Definition activate : Participant :=
  {| objects := []; conversationStates := ∅ |}.

(** [conversationStates.get(sessionKey) || conversationStates.get(sessionKey - 1)] *)
Definition find_state (table : gmap Z nat) (sessionKey : Z) : option nat :=
  match table !! sessionKey with
  | Some object => Some object
  | None => table !! (sessionKey - 1)
  end.

(** The first lines of the request handler: the session object of this
    turn, made if none is found, and registered for the next turn. *)
Definition get_or_create (p : Participant) (sessionKey : Z) : Participant * nat :=
  let (objs, object) :=
    match find_state (conversationStates p) sessionKey with
    | Some object => (objects p, object)
    | None => ((objects p ++ [fresh_state])%list, List.length (objects p))
    end in
  ({| objects := objs;
      conversationStates := <[sessionKey + 1 := object]> (conversationStates p) |},
   object).

(** One request to the participant, with [chatContext.history.length]
    previous turns; it yields the response stream.  The handler works on
    the object the table gave, and what it wrote is seen under every key
    that holds this object.  (The table only ever holds objects that
    exist, see [participant_well_formed]; the last branch is not
    reached.) *)
Definition participant (host : Host) (request : ChatRequest) (history_length : nat)
  (token : CancellationToken) (p : Participant) : Participant * list string :=
  let (p1, object) := get_or_create p (Z.of_nat history_length) in
  match objects p1 !! object with
  | Some state =>
      let t := fst (handle_request host request token {| session := state; stream := [] |}) in
      ({| objects := <[object := session t]> (objects p1);
          conversationStates := conversationStates p1 |},
       stream t)
  | None => (p1, [])
  end.

End Engine.

(** * The variant without MotionWise

    The repository's second copy of the extension knows the platforms
    [posix] and [autosar] only.  Its session objects are of the same kind
    (types are erased at run time): the step is never [config] and the
    two MotionWise fields are never written.  The request handler's
    lookup, [handleAdapterCommand], [buildCodeGenerationPrompt] and the
    loops of the analysis are the same text as above and are used as they
    are; what differs is embedded here. *)
Module Basic.

Definition DFU_KNOWLEDGE : string := lines [
  "# DFU (Development Feature Unlocking) Overview";
  EmptyString;
  "## What is DFU/DMIU?";
  EmptyString;
  "DFU (Development Feature Unlocking Service), also known as DMIU (Development Mode Initialization Unit), enables different debug levels:";
  "- **Debug Level 1** - Basic debugging features";
  "- **Debug Level 2** - Advanced debugging features  ";
  "- **Safe Level** - Production mode (no debug features)";
  EmptyString;
  "## Architecture";
  EmptyString;
  "- **Core (1200-Core)**: Platform-agnostic logic";
  "- **Integration (1800-EcuIntegration)**: Platform-specific implementation";
  EmptyString;
  "## Initialization";
  EmptyString;
  "Call `DMIU_Initialize(config_struct)` where config has three attributes:";
  "1. **target_memory**: Pointer to struct with two uint32 (MagicFlagA, MagicFlagB)";
  "2. **dataset_read_func**: Function to load from persistent storage";
  "3. **debug_level_override_func**: Alternative source with OR logic";
  EmptyString;
  "## Platform-Specific Initialization";
  EmptyString;
  "- **AUTOSAR**: Call from PreOS.c startup sequence";
  "- **POSIX**: Run dmiu daemon, main() from 1800-EcuIntegration/main.c";
  EmptyString;
  "## Client API";
  EmptyString;
  "```c";
  "#include " +:+ dq +:+ "Debug_Mode.h" +:+ dq;
  "if (Dmiu_IsDebugLevel1Active()) { /* basic debug */ }";
  "if (Dmiu_IsDebugLevel2Active()) { /* advanced debug */ }";
  "// If neither active → Safe Level (production)";
  "```";
  EmptyString;
  "## Magic Flag Values";
  EmptyString;
  "```c";
  "// DEBUG_LEVEL_SAFE: 0x00000000, 0x00000000";
  "// DEBUG_LEVEL_1:    0xDEB00001, 0xDEB00001";
  "// DEBUG_LEVEL_2:    0xDEB00002, 0xDEB00002";
  "```";
  EmptyString ].

(** The analysis without the search for a configuration. *)
Definition analyzeWorkspace (host : Host) : Result WorkspaceAnalysis :=
  try! integrationFiles :=
    findFiles host "**/1800-EcuIntegration/**/dmiu/**/*.{c,h}" "**/node_modules/**" 10%nat in
  let existing := map (asRelativePath host) integrationFiles in
  try! posixFiles := findFiles host "**/main.c" "**/node_modules/**" 5%nat in
  try! detected := detect_platform host posixFiles in
  try! headerFiles := findFiles host "**/*.h" "**/node_modules/**" 100%nat in
  try! fns := find_functions host (take 50 headerFiles) [] [] in
  Ok {| detectedPlatform := detected;
        detectedMotionWiseConfig := None;
        memoryFunctions := fst fns;
        datasetFunctions := snd fns;
        existingIntegrationFiles := existing |}.

Section BasicEngine.

Context `{JsStringOps}.

(** The same text as in the other variant, with this variant's
    [DFU_KNOWLEDGE]. *)
Definition generateIntegrationCode (host : Host) (token : CancellationToken) : Act unit :=
  prompt <- read buildCodeGenerationPrompt ;;
  models <- await (selectChatModels host) ;;
  match models with
  | None | Some [] =>
      markdown ("⚠️ Language Model not available" +:+ nl +:+ nl) ;;
      summary <- read config_summary ;;
      markdown summary
  | Some (model :: _) =>
      response <- await (sendRequest model [DFU_KNOWLEDGE; prompt] token) ;;
      forward_chunks (text response) (text_failure response)
  end.

Definition handleIntegrateCommand (host : Host) (request : ChatRequest)
  (token : CancellationToken) : Act unit :=
  let platform := toLowerCase (trim (prompt request)) in
  if negb (platform =? "posix")%string && negb (platform =? "autosar")%string
  then
    markdown ("## DFU Integration" +:+ nl +:+ nl) ;;
    markdown ("Please specify platform: `posix` or `autosar`" +:+ nl +:+ nl) ;;
    markdown ("**Example:** `@dfu /integrate posix`" +:+ nl)
  else
    assign (set_platform (if (platform =? "posix")%string then posix else autosar)) ;;
    assign (set_step memory) ;;
    analysis <- await (analyzeWorkspace host) ;;
    markdown ("## Starting " +:+ toUpperCase platform +:+ " Integration" +:+ nl +:+ nl) ;;
    match detectedPlatform analysis with
    | Some detected =>
        markdown ("✅ Detected platform: " +:+ platform_name detected +:+ nl +:+ nl)
    | None => ret tt
    end ;;
    markdown ("### Files to be created:" +:+ nl +:+ nl) ;;
    markdown ("```" +:+ nl) ;;
    markdown ("1800-EcuIntegration/[PLATFORM]/core/development/dmiu/" +:+ nl) ;;
    markdown ("├── api/dmiu_integration.h" +:+ nl) ;;
    markdown ("└── src/" +:+ nl) ;;
    markdown ("    ├── dmiu_integration.c" +:+ nl) ;;
    (if (platform =? "posix")%string
     then markdown ("    └── main.c" +:+ nl) else ret tt) ;;
    markdown ("```" +:+ nl +:+ nl) ;;
    markdown ("### Step 1/3: Memory Allocation" +:+ nl +:+ nl) ;;
    markdown ("Which function should I use for memory allocation?" +:+ nl +:+ nl) ;;
    (if (0 <? List.length (memoryFunctions analysis))%nat then
       markdown ("**Found in workspace:**" +:+ nl) ;;
       list_functions 0 (memoryFunctions analysis) ;;
       markdown nl
     else ret tt) ;;
    markdown ("**Options:**" +:+ nl) ;;
    (if (platform =? "posix")%string
     then markdown ("- `ShmM_MapOwner` - Shared memory (recommended)" +:+ nl)
     else ret tt) ;;
    markdown ("- `static` - Static global variable" +:+ nl) ;;
    markdown ("- Or provide your custom function name" +:+ nl +:+ nl) ;;
    markdown ("💬 **Just reply with your choice**" +:+ nl).

Definition handleValidateCommand (host : Host) (token : CancellationToken) : Act unit :=
  analysis <- await (analyzeWorkspace host) ;;
  markdown ("## DMIU Integration Validation" +:+ nl +:+ nl) ;;
  if (List.length (existingIntegrationFiles analysis) =? 0)%nat then
    markdown ("❌ No integration files found" +:+ nl +:+ nl) ;;
    markdown ("Run `@dfu /integrate posix` or `@dfu /integrate autosar` to start." +:+ nl)
  else
    markdown ("### Found Integration Files:" +:+ nl +:+ nl) ;;
    list_files (existingIntegrationFiles analysis).

(** A session object whose step is [config] does not come up in this
    variant; a step that no test names leaves the handler without a
    word. *)
Definition handleConversationFlow (host : Host) (request : ChatRequest)
  (token : CancellationToken) : Act unit :=
  let userMessage := trim (prompt request) in
  current <- read step ;;
  match current with
  | initial =>
      markdown DFU_KNOWLEDGE ;;
      markdown (nl +:+ nl +:+ "💡 **Get started:** `@dfu /integrate posix` or `@dfu /integrate autosar`" +:+ nl)
  | memory =>
      assign (set_memoryFunction userMessage) ;;
      assign (set_step dataset) ;;
      markdown ("✅ Memory: `" +:+ userMessage +:+ "`" +:+ nl +:+ nl) ;;
      markdown ("### Step 2/3: Dataset Loading" +:+ nl +:+ nl) ;;
      markdown ("Which function loads debug configuration?" +:+ nl +:+ nl) ;;
      markdown ("Provide function name or describe what it returns:" +:+ nl) ;;
      markdown ("- String (" +:+ dq +:+ "debug_level_1" +:+ dq +:+ ", " +:+ dq
                  +:+ "debug_level_2" +:+ dq +:+ ", " +:+ dq +:+ "safe" +:+ dq +:+ ")" +:+ nl) ;;
      markdown ("- Integer (0=safe, 1=level1, 2=level2)" +:+ nl) ;;
      markdown ("- Compatible signature" +:+ nl +:+ nl) ;;
      markdown ("💬 **Reply with function name or description**" +:+ nl)
  | dataset =>
      assign (set_datasetFunction userMessage) ;;
      assign (set_step alternative) ;;
      markdown ("✅ Dataset: `" +:+ userMessage +:+ "`" +:+ nl +:+ nl) ;;
      markdown ("### Step 3/3: Alternative Load" +:+ nl +:+ nl) ;;
      markdown ("Which function provides alternative debug level?" +:+ nl +:+ nl) ;;
      markdown ("Options:" +:+ nl) ;;
      markdown ("- Function name (if you have one)" +:+ nl) ;;
      markdown ("- `none` (stub returning SAFE)" +:+ nl +:+ nl) ;;
      markdown ("💬 **Reply with function name or " +:+ dq +:+ "none" +:+ dq +:+ "**" +:+ nl)
  | alternative =>
      assign (set_alternativeFunction userMessage) ;;
      assign (set_step complete) ;;
      markdown ("✅ Alternative: `" +:+ userMessage +:+ "`" +:+ nl +:+ nl) ;;
      markdown ("## Generating Integration Files..." +:+ nl +:+ nl) ;;
      generateIntegrationCode host token ;;
      markdown (nl +:+ nl +:+ "✅ **Integration complete!**" +:+ nl +:+ nl) ;;
      markdown ("Next steps:" +:+ nl) ;;
      markdown ("1. Review generated files" +:+ nl) ;;
      markdown ("2. Compile and test" +:+ nl) ;;
      markdown ("3. Use `@dfu /validate` to check" +:+ nl) ;;
      assign (set_step initial)
  | config | complete => ret tt
  end.

(** The body of the request handler, from the [try] on. *)
Definition handle_request (host : Host) (request : ChatRequest)
  (token : CancellationToken) : Act unit :=
  try_catch
    (if command_is "integrate" request then handleIntegrateCommand host request token
     else if command_is "validate" request then handleValidateCommand host token
     else if command_is "adapter" request then handleAdapterCommand request token
     else handleConversationFlow host request token)
    (fun message => markdown (nl +:+ nl +:+ "❌ Error: " +:+ message +:+ nl)).

(** One request to the participant of this variant. *)
Definition participant (host : Host) (request : ChatRequest) (history_length : nat)
  (token : CancellationToken) (p : Participant) : Participant * list string :=
  let (p1, object) := get_or_create p (Z.of_nat history_length) in
  match objects p1 !! object with
  | Some state =>
      let t := fst (handle_request host request token {| session := state; stream := [] |}) in
      ({| objects := <[object := session t]> (objects p1);
          conversationStates := conversationStates p1 |},
       stream t)
  | None => (p1, [])
  end.

End BasicEngine.

End Basic.

(** * Concrete sessions

    Hosts, requests and session objects on which the engine is run
    below, with the ASCII operations for the runtime's strings. *)
Module Scenario.

#[local] Existing Instance AsciiOps.ops.

(** A model that answers with one chunk, unless the request is
    cancelled: then the request is rejected. *)
Definition copilot : LanguageModel := {|
  sendRequest := fun _ token =>
    if isCancellationRequested token then Throw "Canceled"
    else Ok {| text := ["/* dmiu_integration.h */"]; text_failure := None |}
|}.

(** A workspace without files. *)
Definition empty_workspace (models : list LanguageModel) : Host := {|
  findFiles := fun _ _ _ => Ok [];
  asRelativePath := fun uri => uri;
  readFile := fun _ => Throw "EntryNotFound";
  selectChatModels := Ok (Some models)
|}.

(** A workspace with one file under the SV62 configuration. *)
Definition sv62_workspace : Host := {|
  findFiles := fun pattern _ _ =>
    if (pattern =? "**/1710-handwritten-config-sv62/**")%string
    then Ok ["/ws/1710-handwritten-config-sv62/dmiu.c"] else Ok [];
  asRelativePath := fun uri => uri;
  readFile := fun _ => Throw "EntryNotFound";
  selectChatModels := Ok (Some [])
|}.

Definition no_model : Host := empty_workspace [].
Definition with_model : Host := empty_workspace [copilot].

Definition live : CancellationToken := {| isCancellationRequested := false |}.
Definition cancelled : CancellationToken := {| isCancellationRequested := true |}.

Definition integrate (token : string) : ChatRequest :=
  {| command := Some "integrate"; prompt := token |}.
Definition say (text : string) : ChatRequest :=
  {| command := None; prompt := text |}.

(** The session after [/integrate posix]. *)
Definition awaiting_memory : ConversationState := {|
  step := memory;
  platform := Some posix;
  motionwiseConfig := None;
  integrationPath := Some (JStr "1800-EcuIntegration/[PLATFORM]/core/development/dmiu");
  memoryFunction := None;
  datasetFunction := None;
  alternativeFunction := None
|}.

(** ... after the memory function was given, ... *)
Definition awaiting_dataset : ConversationState :=
  set_step dataset (set_memoryFunction "ShmM_MapOwner" awaiting_memory).

(** ... and after the dataset function was given. *)
Definition awaiting_alternative : ConversationState :=
  set_step alternative (set_datasetFunction "MyReader" awaiting_dataset).

(** The session after a generation that threw. *)
Definition stuck_complete : ConversationState :=
  set_step complete (set_alternativeFunction "none" awaiting_alternative).

(** A session that waits for the configuration. *)
Definition awaiting_config : ConversationState :=
  set_step config (set_platform posix fresh_state).

(** A POSIX workspace: an entry point with a marker, a header that
    declares [ShmM_MapOwner], a header with another [Per_DS_Read]
    function, and one integration file. *)
Definition posix_workspace : Host := {|
  findFiles := fun pattern _ _ =>
    if (pattern =? "**/main.c")%string then Ok ["/ws/src/main.c"]
    else if (pattern =? "**/*.h")%string then Ok ["/ws/api/shm.h"; "/ws/api/per.h"]
    else if (pattern =? "**/1800-EcuIntegration/**/dmiu/**/*.{c,h}")%string
    then Ok ["/ws/1800-EcuIntegration/RDB2/core/development/dmiu/src/dmiu_integration.c"]
    else Ok [];
  asRelativePath := fun uri => substring 4 (String.length uri - 4) uri;
  readFile := fun file =>
    if (file =? "/ws/src/main.c")%string then Ok "#ifdef PFSW_BUILD_OS_POSIX"
    else if (file =? "/ws/api/shm.h")%string then Ok "void *ShmM_MapOwner(void);"
    else if (file =? "/ws/api/per.h")%string then Ok "int Per_DS_ReadCounter(void);"
    else Throw "EntryNotFound";
  selectChatModels := Ok (Some [])
|}.

(** A workspace with a header that cannot be read. *)
Definition locked_workspace : Host := {|
  findFiles := fun pattern _ _ =>
    if (pattern =? "**/*.h")%string then Ok ["/ws/api/shm.h"; "/ws/api/locked.h"]
    else Ok [];
  asRelativePath := fun uri => uri;
  readFile := fun file =>
    if (file =? "/ws/api/shm.h")%string then Ok "void *ShmM_MapOwner(void);"
    else Throw "EACCES";
  selectChatModels := Ok (Some [])
|}.

(** A workspace with three entry points: the first holds no marker, the
    second holds one, the third cannot be read. *)
Definition three_entry_points : Host := {|
  findFiles := fun pattern _ _ =>
    if (pattern =? "**/main.c")%string
    then Ok ["/ws/tools/main.c"; "/ws/src/main.c"; "/ws/vendor/main.c"]
    else Ok [];
  asRelativePath := fun uri => uri;
  readFile := fun file =>
    if (file =? "/ws/tools/main.c")%string then Ok "int main(void) { return 0; }"
    else if (file =? "/ws/src/main.c")%string then Ok "ShmM_Init();"
    else Throw "EACCES";
  selectChatModels := Ok (Some [])
|}.

(** A model whose answer breaks off after two chunks. *)
Definition flaky : LanguageModel := {|
  sendRequest := fun _ _ =>
    Ok {| text := ["/* dmiu_integration.h */"; "#pragma once"];
          text_failure := Some "socket hang up" |}
|}.

Definition with_flaky_model : Host := empty_workspace [flaky; copilot].

Definition validate : ChatRequest := {| command := Some "validate"; prompt := EmptyString |}.
Definition adapter (name : string) : ChatRequest :=
  {| command := Some "adapter"; prompt := name |}.

End Scenario.

(** * Properties of the conversation engine *)

Section Properties.

Context `{JsStringOps}.

(** The session object and the response after one request handled on
    the session object [s]. *)
Definition state_after (host : Host) (request : ChatRequest) (token : CancellationToken)
  (s : ConversationState) : ConversationState :=
  session (fst (handle_request host request token {| session := s; stream := [] |})).

Definition response_of (host : Host) (request : ChatRequest) (token : CancellationToken)
  (s : ConversationState) : list string :=
  stream (fst (handle_request host request token {| session := s; stream := [] |})).

(** A request without one of the three slash commands: free text, which
    goes to the conversation flow. *)
Definition free_text (request : ChatRequest) : bool :=
  negb (command_is "integrate" request) && negb (command_is "validate" request)
  && negb (command_is "adapter" request).

(** The platform token of a begin-integration directive is one of the
    three the handler knows. *)
Definition valid_token (request : ChatRequest) : bool :=
  let input := toLowerCase (trim (prompt request)) in
  (input =? "posix")%string || (input =? "autosar")%string
  || (input =? "motionwise")%string.

(** How the generation ends on the session object [s], and what it
    writes to the stream. *)
Definition generation_result (host : Host) (token : CancellationToken)
  (s : ConversationState) : Result unit :=
  snd (generateIntegrationCode host token {| session := s; stream := [] |}).

Definition generation_output (host : Host) (token : CancellationToken)
  (s : ConversationState) : list string :=
  stream (fst (generateIntegrationCode host token {| session := s; stream := [] |})).

(** Several requests in a row on one session object, each with the host
    and the token of its turn. *)
Definition TurnInput : Type := Host * ChatRequest * CancellationToken.

Fixpoint run_turns (turns : list TurnInput) (s : ConversationState) : ConversationState :=
  match turns with
  | (host, request, token) :: rest => run_turns rest (state_after host request token s)
  | [] => s
  end.

Fixpoint responses (turns : list TurnInput) (s : ConversationState) : list (list string) :=
  match turns with
  | (host, request, token) :: rest =>
      response_of host request token s
        :: responses rest (state_after host request token s)
  | [] => []
  end.


(** What the alternative step writes before it starts the generation. *)
Definition capture_alternative (userMessage : string) (s : ConversationState)
  : ConversationState :=
  set_step complete (set_alternativeFunction userMessage s).

(** The writes of [handleIntegrateCommand] to the session object, without
    the response: the platform first, then, if the workspace analysis
    returns, the step and the path. *)
Definition integrate_writes (host : Host) (request : ChatRequest) (s : ConversationState)
  : ConversationState :=
  let input := toLowerCase (trim (prompt request)) in
  if valid_token request then
    let s1 := set_platform (if (input =? "posix")%string then posix
                            else if (input =? "autosar")%string then autosar
                            else posix) s in
    match analyzeWorkspace host with
    | Throw _ => s1
    | Ok analysis =>
        if (input =? "motionwise")%string then
          match (match detectedMotionWiseConfig analysis with
                 | Some unknown | None => None
                 | Some detected => Some detected
                 end) with
          | Some detected =>
              set_step memory
                (set_integrationPath (get_property MOTIONWISE_PATHS (config_name detected))
                   (set_motionwiseConfig (JStr (config_name detected)) s1))
          | None => set_step config s1
          end
        else
          set_integrationPath
            (Some (JStr "1800-EcuIntegration/[PLATFORM]/core/development/dmiu"))
            (set_step memory s1)
    end
  else s.

(** The writes of [handleConversationFlow] to the session object. *)
Definition flow_writes (host : Host) (request : ChatRequest) (token : CancellationToken)
  (s : ConversationState) : ConversationState :=
  let userMessage := trim (prompt request) in
  match step s with
  | initial => s
  | config =>
      if config_accepted userMessage then
        set_step memory
          (set_integrationPath
             (get_property MOTIONWISE_PATHS (js_to_string (selectedConfig userMessage)))
             (set_motionwiseConfig (selectedConfig userMessage) s))
      else s
  | memory => set_step dataset (set_memoryFunction userMessage s)
  | dataset => set_step alternative (set_datasetFunction userMessage s)
  | alternative =>
      match generation_result host token (capture_alternative userMessage s) with
      | Ok _ => set_step initial (capture_alternative userMessage s)
      | Throw _ => capture_alternative userMessage s
      end
  | complete => s
  end.

(** One position forward in the cycle of the steps, the configuration
    step being optional. *)
Definition one_forward (a b : Step) : bool :=
  match a, b with
  | initial, config | initial, memory | config, memory | memory, dataset
  | dataset, alternative | alternative, complete | complete, initial => true
  | _, _ => false
  end.

(** An input the engine accepts at the step of [s]: a begin-integration
    directive with a platform token it knows, a configuration that is
    found, or any text at one of the three capture steps. *)
Definition valid_input (request : ChatRequest) (s : ConversationState) : bool :=
  if command_is "integrate" request then valid_token request
  else
    free_text request
    && match step s with
       | config => config_accepted (trim (prompt request))
       | memory | dataset | alternative => true
       | initial | complete => false
       end.

(** A configuration selection that matches an entry: one of the numbers
    of the list, or, in lower case, the name of an identifier of the
    catalog.  This is what a selection is meant to be; the test the code
    makes is [config_accepted]. *)
Definition matched_selection (userMessage : string) : bool :=
  match own_property configMap userMessage with
  | Some _ => true
  | None =>
      match own_property MOTIONWISE_PATHS (toLowerCase userMessage) with
      | Some _ => true
      | None => false
      end
  end.

(** A selection that is not the name of a member every object inherits,
    while its lower-cased text is one. *)
Definition inherited_selection (userMessage : string) : bool :=
  negb (existsb (String.eqb userMessage) object_prototype)
  && existsb (String.eqb (toLowerCase userMessage)) object_prototype.

(** An input that is to be turned down at the step of [s]: a
    begin-integration directive with an unknown platform token, a
    configuration selection that matches no entry, or free text before
    any directive. *)
Definition rejected (request : ChatRequest) (s : ConversationState) : bool :=
  if command_is "integrate" request then negb (valid_token request)
  else
    free_text request
    && match step s with
       | initial => true
       | config => negb (matched_selection (trim (prompt request)))
       | _ => false
       end.

(** The same request again and again, each time with the host and token
    of that turn. *)
Definition repeated (request : ChatRequest) (turns : list (Host * CancellationToken))
  : list TurnInput :=
  map (fun '(host, token) => (host, request, token)) turns.

(** Two session objects that agree on the step and on the captured
    values a later turn can still read at that step. *)
Definition same_reads (s s' : ConversationState) : Prop :=
  step s = step s'
  /\ (step s = config \/ step s = memory \/ step s = dataset \/ step s = alternative ->
      platform s = platform s')
  /\ (step s = dataset \/ step s = alternative -> memoryFunction s = memoryFunction s')
  /\ (step s = alternative -> datasetFunction s = datasetFunction s').

(** A turn that is not a begin-integration directive. *)
Definition not_integrate (turn : TurnInput) : Prop :=
  command_is "integrate" (snd (fst turn)) = false.

(** Every entry of the table is one of the session objects. *)
Definition well_formed (p : Participant) : Prop :=
  forall (k : Z) (object : nat),
    conversationStates p !! k = Some object -> (object < List.length (objects p))%nat.

(** ** The workspace as the analysis sees it *)

(** A search of the workspace, with the exclusion the extension always
    gives. *)
Definition search (host : Host) (pattern : string) (maxResults : nat)
  : Result (list string) :=
  findFiles host pattern "**/node_modules/**" maxResults.

(** The file can be read. *)
Definition readable (host : Host) (file : string) : Prop :=
  exists content, readFile host file = Ok content.

(** The file can be read and holds the marker. *)
Definition has_marker (host : Host) (marker file : string) : bool :=
  match readFile host file with
  | Ok content => includes content marker
  | Throw _ => false
  end.

(** The file holds one of the two markers of a POSIX entry point. *)
Definition posix_marked (host : Host) (file : string) : bool :=
  has_marker host "PFSW_BUILD_OS_POSIX" file || has_marker host "ShmM" file.

(** Every key of the table is at least 1. *)
Definition keys_positive (p : Participant) : Prop :=
  forall (k : Z) (object : nat), conversationStates p !! k = Some object -> 1 <= k.

(** One conversation: each request comes with two more earlier turns
    than the request before it, its own and the response to it. *)
Fixpoint converse (turns : list TurnInput) (history_length : nat) (p : Participant)
  : Participant * list (list string) :=
  match turns with
  | (host, request, token) :: rest =>
      let (p1, response) := participant host request history_length token p in
      let (p2, later) := converse rest (S (S history_length)) p1 in
      (p2, response :: later)
  | [] => (p, [])
  end.

(** The session object and the response after one request in the
    variant without MotionWise. *)
Definition basic_state_after (host : Host) (request : ChatRequest)
  (token : CancellationToken) (s : ConversationState) : ConversationState :=
  session (fst (Basic.handle_request host request token {| session := s; stream := [] |})).

Definition basic_response_of (host : Host) (request : ChatRequest)
  (token : CancellationToken) (s : ConversationState) : list string :=
  stream (fst (Basic.handle_request host request token {| session := s; stream := [] |})).

(** ** Running a handler *)

Ltac run_act :=
  cbv [bind markdown assign read ret await try_catch];
  cbn [session stream fst snd step platform motionwiseConfig integrationPath
       memoryFunction datasetFunction alternativeFunction
       set_step set_platform set_motionwiseConfig set_integrationPath
       set_memoryFunction set_datasetFunction set_alternativeFunction].

(** An action that only writes to the stream. *)
Definition writes_only (c : Act unit) (out : list string) : Prop :=
  forall t, c t = ({| session := session t; stream := (stream t ++ out)%list |}, Ok tt).

(** What an action writes when it starts on an empty stream. *)
Definition written (c : Act unit) : list string :=
  stream (fst (c {| session := fresh_state; stream := [] |})).


Lemma turn_app_nil (t : Turn) :
  {| session := session t; stream := (stream t ++ [])%list |} = t.
Proof. destruct t as [s o]. cbn. by rewrite app_nil_r. Qed.

Lemma writes_only_ret : writes_only (ret tt) [].
Proof. intros t. unfold ret. by rewrite turn_app_nil. Qed.

Lemma writes_only_markdown (s : string) : writes_only (markdown s) [s].
Proof. intros t. reflexivity. Qed.

Lemma writes_only_bind (c1 c2 : Act unit) (o1 o2 : list string) :
  writes_only c1 o1 -> writes_only c2 o2 ->
  writes_only (c1 ;; c2) (o1 ++ o2)%list.
Proof.
  intros H1 H2 t. unfold bind. rewrite H1, H2. cbn. by rewrite app_assoc.
Qed.

Lemma writes_only_written (c : Act unit) (out : list string) :
  writes_only c out -> writes_only c (written c).
Proof. intros Hc. unfold written. by rewrite Hc. Qed.

Lemma list_functions_writes (fns : list string) (i : nat) :
  writes_only (list_functions i fns) (written (list_functions i fns)).
Proof.
  cut (exists out, writes_only (list_functions i fns) out).
  { intros [out Hout]. by eapply writes_only_written. }
  revert i. induction fns as [| fn rest IH]; intros i; cbn [list_functions].
  - eexists. apply writes_only_ret.
  - destruct (IH (S i)) as [out Hout]. eexists.
    apply writes_only_bind; [apply writes_only_markdown | exact Hout].
Qed.

Lemma list_files_writes (files : list string) :
  writes_only (list_files files) (written (list_files files)).
Proof.
  cut (exists out, writes_only (list_files files) out).
  { intros [out Hout]. by eapply writes_only_written. }
  induction files as [| file rest [out Hout]]; cbn [list_files].
  - eexists. apply writes_only_ret.
  - eexists. apply writes_only_bind; [apply writes_only_markdown | exact Hout].
Qed.

Lemma forward_chunks_run (chunks : list string) (failure : option string) (t : Turn) :
  forward_chunks chunks failure t =
  ({| session := session t; stream := (stream t ++ chunks)%list |},
   match failure with Some m => Throw m | None => Ok tt end).
Proof.
  revert t. induction chunks as [| chunk rest IH]; intros t; cbn [forward_chunks].
  - rewrite turn_app_nil. by destruct failure.
  - unfold bind, markdown. rewrite IH. cbn. by rewrite <- app_assoc.
Qed.

(** The generation reads the session object and writes to the stream
    only. *)
Lemma generate_run (host : Host) (token : CancellationToken) (t : Turn) :
  generateIntegrationCode host token t =
  ({| session := session t;
      stream := (stream t ++ generation_output host token (session t))%list |},
   generation_result host token (session t)).
Proof.
  unfold generation_output, generation_result, generateIntegrationCode.
  run_act. destruct (selectChatModels host) as [[[| model rest] |] | m]; run_act.
  - cbn [app]. by rewrite <- !app_assoc.
  - destruct (sendRequest model _ token) as [response | m]; cbn [fst snd stream].
    + rewrite !forward_chunks_run. reflexivity.
    + by rewrite turn_app_nil.
  - cbn [app]. by rewrite <- !app_assoc.
  - by rewrite turn_app_nil.
Qed.

Lemma free_text_dispatch (host : Host) (request : ChatRequest) (token : CancellationToken) :
  free_text request = true ->
  handle_request host request token =
  try_catch (handleConversationFlow host request token)
    (fun message => markdown (nl +:+ nl +:+ "❌ Error: " +:+ message +:+ nl)).
Proof.
  unfold free_text, handle_request. intros Hf.
  destruct (command_is "integrate" request); [discriminate |].
  destruct (command_is "validate" request); [discriminate |].
  destruct (command_is "adapter" request); [discriminate |].
  reflexivity.
Qed.

Lemma integrate_dispatch (host : Host) (request : ChatRequest) (token : CancellationToken) :
  command_is "integrate" request = true ->
  handle_request host request token =
  try_catch (handleIntegrateCommand host request token)
    (fun message => markdown (nl +:+ nl +:+ "❌ Error: " +:+ message +:+ nl)).
Proof. unfold handle_request. intros ->. reflexivity. Qed.

Lemma other_command_dispatch (host : Host) (request : ChatRequest)
  (token : CancellationToken) :
  command_is "integrate" request = false -> free_text request = false ->
  handle_request host request token =
  try_catch
    (if command_is "validate" request then handleValidateCommand host token
     else handleAdapterCommand request token)
    (fun message => markdown (nl +:+ nl +:+ "❌ Error: " +:+ message +:+ nl)).
Proof.
  unfold free_text, handle_request. intros -> Hf. cbn [negb andb] in Hf.
  destruct (command_is "validate" request); [reflexivity |].
  destruct (command_is "adapter" request); [reflexivity | discriminate].
Qed.

(** Case analysis on whatever keeps a handler from running further. *)
Ltac crunch_step :=
  match goal with
  | |- context [list_functions ?i ?l ?t] => rewrite (list_functions_writes l i t)
  | |- context [list_files ?l ?t] => rewrite (list_files_writes l t)
  | |- context [generateIntegrationCode ?h ?k ?t] => rewrite (generate_run h k t)
  | |- context [@decide ?P ?d] => destruct (@decide P d)
  | |- context [if ?b then _ else _] => destruct b eqn:?
  | |- context [match ?r with Ok _ => _ | Throw _ => _ end] => destruct r eqn:?
  | |- context [match ?r with Some _ => _ | None => _ end] => destruct r eqn:?
  end.

Ltac crunch := run_act; repeat (crunch_step; run_act).

(** The session object after a begin-integration directive. *)
Lemma integrate_state (host : Host) (request : ChatRequest) (token : CancellationToken)
  (s : ConversationState) :
  command_is "integrate" request = true ->
  state_after host request token s = integrate_writes host request s.
Proof.
  intros Hc. unfold state_after. rewrite integrate_dispatch by done.
  unfold handleIntegrateCommand, integrate_writes, valid_token.
  set (input := toLowerCase (trim (prompt request))).
  replace (negb (input =? "posix")%string && negb (input =? "autosar")%string
           && negb (input =? "motionwise")%string)
    with (negb ((input =? "posix")%string || (input =? "autosar")%string
                || (input =? "motionwise")%string))
    by (destruct (input =? "posix")%string, (input =? "autosar")%string,
          (input =? "motionwise")%string; reflexivity).
  destruct ((input =? "posix")%string || (input =? "autosar")%string
            || (input =? "motionwise")%string); cbn [negb].
  - run_act. destruct (analyzeWorkspace host) as [analysis | m]; [| reflexivity].
    destruct (input =? "motionwise")%string.
    + destruct (detectedMotionWiseConfig analysis) as [detected |];
        [destruct detected |]; crunch; reflexivity.
    + crunch; reflexivity.
  - reflexivity.
Qed.

(** The session object after free text. *)
Lemma flow_state (host : Host) (request : ChatRequest) (token : CancellationToken)
  (s : ConversationState) :
  free_text request = true ->
  state_after host request token s = flow_writes host request token s.
Proof.
  intros Hf. unfold state_after. rewrite free_text_dispatch by done.
  unfold handleConversationFlow, flow_writes, capture_alternative.
  run_act. destruct (step s); crunch; reflexivity.
Qed.

(** The other two directives leave the session object alone. *)
Lemma other_command_state (host : Host) (request : ChatRequest)
  (token : CancellationToken) (s : ConversationState) :
  command_is "integrate" request = false -> free_text request = false ->
  state_after host request token s = s.
Proof.
  intros Hc Hf. unfold state_after. rewrite other_command_dispatch by done.
  unfold handleValidateCommand, handleAdapterCommand.
  destruct (command_is "validate" request); crunch; reflexivity.
Qed.

(** ** The catalog *)

(** C6. The catalog lookup [MOTIONWISE_PATHS[identifier]] yields a
    non-empty path string for each of the seven identifiers of the closed
    set, and the generic and the unknown identifier both yield the
    templated placeholder path. *)
Theorem catalog_total (c : MotionWiseConfig) :
  (exists path : string,
      get_property MOTIONWISE_PATHS (config_name c) = Some (JStr path)
      /\ path <> EmptyString
      /\ truthy (get_property MOTIONWISE_PATHS (config_name c)) = true)
  /\ get_property MOTIONWISE_PATHS (config_name generic)
     = Some (JStr "1800-EcuIntegration/[PLATFORM]/core/development/dmiu")
  /\ get_property MOTIONWISE_PATHS (config_name unknown)
     = Some (JStr "1800-EcuIntegration/[PLATFORM]/core/development/dmiu").
Proof.
  split; [| split; reflexivity].
  destruct c; eexists; (split; [reflexivity | split; [discriminate | reflexivity]]).
Qed.

(** ** The capture steps *)

(** C8, as the code has it.  At each of the three capture steps any
    text is taken, the empty one included, and after the turn the field
    of the step holds the trimmed text.  After the memory step the
    session is at [dataset] and after the dataset step at [alternative],
    one position forward each.  After the alternative step the session is
    not one position forward: the handler sets [complete] before the
    generation, and the turn ends at [initial] when the generation
    returns and at [complete] when it throws.  No capture step touches
    the platform, the configuration, the path or the field of another
    capture step. *)
Theorem capture_any_text (host : Host) (request : ChatRequest) (token : CancellationToken)
  (s : ConversationState) :
  free_text request = true ->
  let userMessage := trim (prompt request) in
  let s' := state_after host request token s in
  (step s = memory ->
     memoryFunction s' = Some userMessage
     /\ step s' = dataset /\ one_forward (step s) (step s') = true)
  /\ (step s = dataset ->
        datasetFunction s' = Some userMessage
        /\ step s' = alternative /\ one_forward (step s) (step s') = true)
  /\ (step s = alternative ->
        alternativeFunction s' = Some userMessage
        /\ step s' = match generation_result host token
                             (capture_alternative userMessage s) with
                     | Ok _ => initial
                     | Throw _ => complete
                     end)
  /\ (step s = memory \/ step s = dataset \/ step s = alternative ->
        platform s' = platform s
        /\ motionwiseConfig s' = motionwiseConfig s
        /\ integrationPath s' = integrationPath s
        /\ (step s <> memory -> memoryFunction s' = memoryFunction s)
        /\ (step s <> dataset -> datasetFunction s' = datasetFunction s)
        /\ (step s <> alternative -> alternativeFunction s' = alternativeFunction s)).
Proof.
  intros Hf userMessage s'. subst s'. rewrite flow_state by done.
  unfold flow_writes. fold userMessage.
  split; [| split; [| split]].
  - intros ->. by repeat split.
  - intros ->. by repeat split.
  - intros ->. split; by destruct (generation_result _ _ _).
  - intros [-> | [-> | ->]];
      [| | destruct (generation_result _ _ _)]; by repeat split.
Qed.

(** ** The platform *)

Lemma flow_writes_platform (host : Host) (request : ChatRequest) (token : CancellationToken)
  (s : ConversationState) :
  platform (flow_writes host request token s) = platform s.
Proof.
  unfold flow_writes, capture_alternative.
  destruct (step s); try reflexivity.
  - by destruct (config_accepted _).
  - by destruct (generation_result _ _ _).
Qed.

(** Only a begin-integration directive writes the platform. *)
Lemma platform_kept (host : Host) (request : ChatRequest) (token : CancellationToken)
  (s : ConversationState) :
  command_is "integrate" request = false ->
  platform (state_after host request token s) = platform s.
Proof.
  intros Hc. destruct (free_text request) eqn:Hf.
  - rewrite flow_state by done. apply flow_writes_platform.
  - by rewrite other_command_state.
Qed.

Lemma platform_kept_turns (turns : list TurnInput) (s : ConversationState) :
  Forall not_integrate turns -> platform (run_turns turns s) = platform s.
Proof.
  intros Hall. revert s.
  induction Hall as [| [[host request] token] rest Hturn _ IH]; intros s; [reflexivity |].
  cbn [run_turns]. rewrite IH. by apply platform_kept.
Qed.

(** C9. A begin-integration directive with the token [motionwise] writes
    [posix] into the platform field of the session, whatever the session
    held and whatever the workspace analysis does afterwards; and the
    field still holds [posix] after any further turns that are not a new
    begin-integration directive. *)
Theorem motionwise_platform_posix (host : Host) (request : ChatRequest)
  (token : CancellationToken) (s : ConversationState) :
  command_is "integrate" request = true ->
  toLowerCase (trim (prompt request)) = "motionwise" ->
  platform (state_after host request token s) = Some posix
  /\ (forall turns : list TurnInput,
        Forall not_integrate turns ->
        platform (run_turns turns (state_after host request token s)) = Some posix).
Proof.
  intros Hc Hin.
  assert (Hp : platform (state_after host request token s) = Some posix).
  { rewrite integrate_state by done. unfold integrate_writes, valid_token.
    rewrite Hin.
    change ("motionwise" =? "posix")%string with false.
    change ("motionwise" =? "autosar")%string with false.
    change ("motionwise" =? "motionwise")%string with true.
    cbn [orb]. destruct (analyzeWorkspace host) as [analysis | m]; [| reflexivity].
    destruct (detectedMotionWiseConfig analysis) as [[] |]; reflexivity. }
  split; [exact Hp |].
  intros turns Hall. by rewrite platform_kept_turns.
Qed.

(** ** A generation that does not return *)

(** C10. When the generation throws after the alternative step has
    written its text, the session is left with the step [complete]: the
    reset to [initial] is not reached.  At the step [complete] free text
    meets no branch of the flow: the response is empty and the session
    object is as before.  Nor does any other request that is not a
    begin-integration directive change the session; a begin-integration
    directive with a known token, once the workspace analysis returns,
    moves the step to [memory] or [config]. *)
Theorem complete_until_new_directive (host : Host) (request : ChatRequest)
  (token : CancellationToken) (s : ConversationState) :
  (free_text request = true -> step s = alternative ->
   forall m, generation_result host token
               (capture_alternative (trim (prompt request)) s) = Throw m ->
   state_after host request token s = capture_alternative (trim (prompt request)) s
   /\ step (state_after host request token s) = complete)
  /\ (step s = complete -> free_text request = true ->
      state_after host request token s = s /\ response_of host request token s = [])
  /\ (step s = complete -> command_is "integrate" request = false ->
      state_after host request token s = s)
  /\ (step s = complete -> command_is "integrate" request = true ->
      valid_token request = true ->
      forall analysis, analyzeWorkspace host = Ok analysis ->
      step (state_after host request token s) = memory
      \/ step (state_after host request token s) = config).
Proof.
  split; [| split; [| split]].
  - intros Hf Hs m Hm. rewrite flow_state by done. unfold flow_writes.
    rewrite Hs, Hm. split; reflexivity.
  - intros Hs Hf. split.
    + rewrite flow_state by done. unfold flow_writes. by rewrite Hs.
    + unfold response_of. rewrite free_text_dispatch by done.
      unfold handleConversationFlow. run_act. rewrite Hs. reflexivity.
  - intros Hs Hc. destruct (free_text request) eqn:Hf.
    + rewrite flow_state by done. unfold flow_writes. by rewrite Hs.
    + by apply other_command_state.
  - intros Hs Hc Hv analysis Ha. rewrite integrate_state by done.
    unfold integrate_writes. rewrite Hv, Ha.
    destruct (toLowerCase (trim (prompt request)) =? "motionwise")%string;
      [| by left].
    destruct (detectedMotionWiseConfig analysis) as [[] |]; by (left + right).
Qed.

(** ** Cancellation *)

(** C5, as the code has it.  The cancellation token goes to the model
    request of the alternative step and nowhere else: every other turn
    runs the same with any token.  The alternative step writes its text
    and the step [complete] before the generation starts, and nothing
    takes them back: after the turn the session holds the new text, and
    the step is [complete] when the generation threw, as a cancelled one
    does, or [initial] when it returned; the platform, the configuration,
    the path, the memory and the dataset function are as before the
    turn. *)
Theorem cancelled_turn_keeps_writes (host : Host) (request : ChatRequest)
  (token : CancellationToken) (s : ConversationState) :
  (free_text request = false \/ step s <> alternative ->
   forall (token' : CancellationToken) (out : list string),
     handle_request host request token {| session := s; stream := out |}
     = handle_request host request token' {| session := s; stream := out |})
  /\ (free_text request = true -> step s = alternative ->
      let s' := state_after host request token s in
      alternativeFunction s' = Some (trim (prompt request))
      /\ step s' = match generation_result host token
                           (capture_alternative (trim (prompt request)) s) with
                   | Ok _ => initial
                   | Throw _ => complete
                   end
      /\ step s' <> step s
      /\ platform s' = platform s
      /\ motionwiseConfig s' = motionwiseConfig s
      /\ integrationPath s' = integrationPath s
      /\ memoryFunction s' = memoryFunction s
      /\ datasetFunction s' = datasetFunction s).
Proof.
  split.
  - intros Hcase token' out. destruct (free_text request) eqn:Hf.
    + destruct Hcase as [? | Hs]; [discriminate |].
      rewrite !free_text_dispatch by done.
      unfold handleConversationFlow. run_act.
      destruct (step s); try reflexivity. done.
    + revert Hf. unfold free_text, handle_request.
      destruct (command_is "integrate" request); [reflexivity |].
      destruct (command_is "validate" request); [reflexivity |].
      destruct (command_is "adapter" request); [reflexivity | discriminate].
  - intros Hf Hs s'. subst s'. rewrite flow_state by done.
    unfold flow_writes. rewrite Hs.
    destruct (generation_result _ _ _); repeat split; discriminate.
Qed.

(** ** No model *)


(** ** The order of the steps *)

(** C1, as the code has it.  Free text moves the step one position
    forward: an accepted configuration leads from [config] to [memory],
    any text from [memory] to [dataset] and from [dataset] to
    [alternative].  At [alternative] the step is set to [complete] before
    the generation and, in the same turn, back to [initial] once the
    generation has returned; it stays [complete] when the generation
    throws.  A begin-integration directive with a known token, once the
    workspace analysis returns, sets the step to [memory], or to [config]
    when the token is [motionwise] and no configuration is detected,
    whatever the step was: this is one position forward from [initial],
    and a restart from any later step. *)
Theorem step_transitions (host : Host) (request : ChatRequest) (token : CancellationToken)
  (s : ConversationState) :
  let s' := state_after host request token s in
  (free_text request = true ->
     (step s = config -> config_accepted (trim (prompt request)) = true ->
      step s' = memory /\ one_forward (step s) (step s') = true)
     /\ (step s = memory -> step s' = dataset /\ one_forward (step s) (step s') = true)
     /\ (step s = dataset ->
         step s' = alternative /\ one_forward (step s) (step s') = true)
     /\ (step s = alternative ->
         step (capture_alternative (trim (prompt request)) s) = complete
         /\ step s' = match generation_result host token
                              (capture_alternative (trim (prompt request)) s) with
                      | Ok _ => initial
                      | Throw _ => complete
                      end))
  /\ (command_is "integrate" request = true -> valid_token request = true ->
      forall analysis, analyzeWorkspace host = Ok analysis ->
      step s' = (if (toLowerCase (trim (prompt request)) =? "motionwise")%string
                 then match detectedMotionWiseConfig analysis with
                      | Some unknown | None => config
                      | Some _ => memory
                      end
                 else memory)
      /\ (step s = initial -> one_forward (step s) (step s') = true)).
Proof.
  intros s'. subst s'. split.
  - intros Hf. rewrite flow_state by done. unfold flow_writes.
    split; [| split; [| split]]; intros Hs; rewrite Hs.
    + intros ->. split; reflexivity.
    + split; reflexivity.
    + split; reflexivity.
    + split; [reflexivity |]. by destruct (generation_result _ _ _).
  - intros Hc Hv analysis Ha. rewrite integrate_state by done.
    unfold integrate_writes. rewrite Hv, Ha.
    destruct (toLowerCase (trim (prompt request)) =? "motionwise")%string.
    + destruct (detectedMotionWiseConfig analysis) as [[] |];
        (split; [reflexivity | by intros ->]).
    + split; [reflexivity | by intros ->].
Qed.

(** ** The table of sessions *)

Lemma find_state_spec (table : gmap Z nat) (sessionKey : Z) :
  find_state table sessionKey
  = match table !! sessionKey with
    | Some object => Some object
    | None => table !! (sessionKey - 1)
    end.
Proof. reflexivity. Qed.

Lemma well_formed_activate : well_formed activate.
Proof. intros k object. unfold activate. cbn. by rewrite lookup_empty. Qed.

Lemma get_or_create_well_formed (p : Participant) (K : Z) :
  well_formed p ->
  well_formed (fst (get_or_create p K))
  /\ (snd (get_or_create p K) < List.length (objects (fst (get_or_create p K))))%nat.
Proof.
  intros Hwf. unfold get_or_create, find_state, well_formed.
  destruct (conversationStates p !! K) as [o |] eqn:HK;
    [| destruct (conversationStates p !! (K - 1)) as [o |] eqn:HK1];
    cbn [fst snd objects conversationStates].
  - split; [| by eapply Hwf].
    intros k object. rewrite lookup_insert.
    case_decide; [intros [= <-]; by eapply Hwf | apply Hwf].
  - split; [| by eapply Hwf].
    intros k object. rewrite lookup_insert.
    case_decide; [intros [= <-]; by eapply Hwf | apply Hwf].
  - rewrite length_app. cbn [List.length]. split; [| lia].
    intros k object. rewrite lookup_insert.
    case_decide; [intros [= <-]; lia |].
    intros Hk. apply Hwf in Hk. lia.
Qed.

(** One request to the participant is the handler run on the session
    object of the turn, which is written back in place. *)
Lemma participant_turn (host : Host) (request : ChatRequest) (history_length : nat)
  (token : CancellationToken) (p : Participant) :
  well_formed p ->
  let p1 := fst (get_or_create p (Z.of_nat history_length)) in
  let object := snd (get_or_create p (Z.of_nat history_length)) in
  exists state : ConversationState,
    objects p1 !! object = Some state
    /\ participant host request history_length token p
       = ({| objects := <[object := state_after host request token state]> (objects p1);
             conversationStates := conversationStates p1 |},
          response_of host request token state).
Proof.
  intros Hwf p1 object.
  destruct (get_or_create_well_formed p (Z.of_nat history_length) Hwf) as [_ Hlt].
  fold p1 object in Hlt. apply lookup_lt_is_Some_2 in Hlt as [state Hstate].
  exists state. split; [exact Hstate |].
  unfold participant. destruct (get_or_create p (Z.of_nat history_length)) as [q o].
  cbn [fst snd] in *. subst p1 object. by rewrite Hstate.
Qed.

Lemma participant_well_formed (host : Host) (request : ChatRequest) (history_length : nat)
  (token : CancellationToken) (p : Participant) :
  well_formed p -> well_formed (fst (participant host request history_length token p)).
Proof.
  intros Hwf.
  destruct (participant_turn host request history_length token p Hwf)
    as (state & _ & ->).
  destruct (get_or_create_well_formed p (Z.of_nat history_length) Hwf) as [Hwf1 _].
  intros k object. cbn [fst objects conversationStates]. rewrite length_insert.
  apply Hwf1.
Qed.

(** C3.  The lookup at the start of a turn with history length [K]: an
    entry under [K] is the session of the turn; failing that, an entry
    under [K - 1] is; failing both, a new session object with the step
    [initial] is made.  In each case the table afterwards holds that
    object under [K + 1], and is otherwise as before.  So an object
    registered under [K] is the one found under [K + 1], where no entry
    of [K + 1] itself comes first. *)
Theorem get_or_create_spec (p : Participant) (K : Z) :
  let p' := fst (get_or_create p K) in
  let object := snd (get_or_create p K) in
  (forall o, conversationStates p !! K = Some o ->
     object = o /\ objects p' = objects p)
  /\ (conversationStates p !! K = None ->
      forall o, conversationStates p !! (K - 1) = Some o ->
      object = o /\ objects p' = objects p)
  /\ (conversationStates p !! K = None -> conversationStates p !! (K - 1) = None ->
      object = List.length (objects p)
      /\ objects p' = (objects p ++ [fresh_state])%list
      /\ objects p' !! object = Some fresh_state
      /\ step fresh_state = initial)
  /\ conversationStates p' = <[K + 1 := object]> (conversationStates p)
  /\ conversationStates p' !! (K + 1) = Some object
  /\ (forall (table : gmap Z nat) (o : nat),
        table !! (K + 1) = None ->
        find_state (<[K := o]> table) (K + 1) = Some o).
Proof.
  intros p' object. subst p' object. unfold get_or_create, find_state.
  split; [| split; [| split; [| split; [| split]]]].
  - intros o ->. split; reflexivity.
  - intros -> o ->. split; reflexivity.
  - intros -> ->. cbn [fst snd objects]. repeat split.
    by rewrite lookup_app_r, Nat.sub_diag.
  - destruct (conversationStates p !! K); [reflexivity |].
    destruct (conversationStates p !! (K - 1)); reflexivity.
  - destruct (conversationStates p !! K);
      [| destruct (conversationStates p !! (K - 1))];
      cbn [fst snd conversationStates]; apply lookup_insert_eq.
  - intros table o Hnone. rewrite lookup_insert_ne by lia. rewrite Hnone.
    replace (K + 1 - 1) with K by lia. apply lookup_insert_eq.
Qed.

(** ** What a later turn can read of the session *)

(** The generation reads four fields of the session object. *)
Lemma generation_same_fields (host : Host) (token : CancellationToken)
  (s s' : ConversationState) :
  platform s = platform s' -> memoryFunction s = memoryFunction s' ->
  datasetFunction s = datasetFunction s' ->
  alternativeFunction s = alternativeFunction s' ->
  generation_output host token s = generation_output host token s'
  /\ generation_result host token s = generation_result host token s'.
Proof.
  intros Hp Hm Hd Ha.
  assert (Hprompt : buildCodeGenerationPrompt s = buildCodeGenerationPrompt s')
    by (unfold buildCodeGenerationPrompt; by rewrite Hp, Hm, Hd, Ha).
  assert (Hsummary : config_summary s = config_summary s')
    by (unfold config_summary; by rewrite Hp, Hm, Hd, Ha).
  unfold generation_output, generation_result, generateIntegrationCode. run_act.
  destruct (selectChatModels host) as [[[| model rest] |] | m]; run_act;
    rewrite ?Hprompt, ?Hsummary; try (split; reflexivity).
  destruct (sendRequest model _ token) as [response | m]; [| split; reflexivity].
  rewrite !forward_chunks_run. split; reflexivity.
Qed.

(** The response to a begin-integration directive shows only what the
    handler has just written. *)
Lemma integrate_response (host : Host) (request : ChatRequest) (token : CancellationToken)
  (s s' : ConversationState) :
  command_is "integrate" request = true ->
  response_of host request token s = response_of host request token s'.
Proof.
  intros Hc. unfold response_of. rewrite integrate_dispatch by done.
  unfold handleIntegrateCommand.
  set (input := toLowerCase (trim (prompt request))).
  destruct (negb (input =? "posix")%string && negb (input =? "autosar")%string
            && negb (input =? "motionwise")%string); [reflexivity |].
  run_act. destruct (analyzeWorkspace host) as [analysis | m]; [| reflexivity].
  destruct (input =? "motionwise")%string.
  - destruct (detectedMotionWiseConfig analysis) as [detected |];
      [destruct detected |]; crunch; reflexivity.
  - crunch; reflexivity.
Qed.

Lemma other_command_response (host : Host) (request : ChatRequest)
  (token : CancellationToken) (s s' : ConversationState) :
  command_is "integrate" request = false -> free_text request = false ->
  response_of host request token s = response_of host request token s'.
Proof.
  intros Hc Hf. unfold response_of. rewrite other_command_dispatch by done.
  unfold handleValidateCommand, handleAdapterCommand.
  destruct (command_is "validate" request); crunch; reflexivity.
Qed.

Lemma flow_response (host : Host) (request : ChatRequest) (token : CancellationToken)
  (s s' : ConversationState) :
  free_text request = true -> same_reads s s' ->
  response_of host request token s = response_of host request token s'.
Proof.
  intros Hf (Hstep & Hp & Hm & Hd). unfold response_of.
  rewrite free_text_dispatch by done. unfold handleConversationFlow. run_act.
  rewrite <- Hstep. destruct (step s) eqn:Hs; try reflexivity.
  - destruct (config_accepted _); reflexivity.
  - run_act. rewrite !generate_run. cbn [session stream].
    destruct (generation_same_fields host token
                (set_step complete (set_alternativeFunction (trim (prompt request)) s))
                (set_step complete (set_alternativeFunction (trim (prompt request)) s')))
      as [-> ->]; cbn [platform memoryFunction datasetFunction alternativeFunction
                       set_step set_alternativeFunction]; auto.
    destruct (generation_result _ _ _); reflexivity.
Qed.

Ltac solve_same_reads :=
  unfold same_reads in *;
  cbn [step platform memoryFunction datasetFunction alternativeFunction
       set_step set_platform set_motionwiseConfig set_integrationPath
       set_memoryFunction set_datasetFunction set_alternativeFunction] in *;
  intuition congruence.

Lemma same_reads_state (host : Host) (request : ChatRequest) (token : CancellationToken)
  (s s' : ConversationState) :
  same_reads s s' ->
  same_reads (state_after host request token s) (state_after host request token s').
Proof.
  intros Hsame. pose proof Hsame as (Hstep & _).
  destruct (command_is "integrate" request) eqn:Hc.
  - rewrite !integrate_state by done. unfold integrate_writes.
    destruct (valid_token request); [| exact Hsame].
    destruct (analyzeWorkspace host) as [analysis | m]; [| solve_same_reads].
    destruct (toLowerCase (trim (prompt request)) =? "motionwise")%string;
      [| solve_same_reads].
    destruct (detectedMotionWiseConfig analysis) as [[] |]; solve_same_reads.
  - destruct (free_text request) eqn:Hf; [| by rewrite !other_command_state].
    rewrite !flow_state by done. unfold flow_writes, capture_alternative.
    rewrite <- Hstep. destruct (step s) eqn:Hs; try exact Hsame.
    + destruct (config_accepted _); [solve_same_reads | exact Hsame].
    + solve_same_reads.
    + solve_same_reads.
    + destruct (generation_same_fields host token
                  (set_step complete (set_alternativeFunction (trim (prompt request)) s))
                  (set_step complete (set_alternativeFunction (trim (prompt request)) s')))
        as [_ ->]; [solve_same_reads .. |].
      destruct (generation_result _ _ _); solve_same_reads.
Qed.

Lemma same_reads_response (host : Host) (request : ChatRequest)
  (token : CancellationToken) (s s' : ConversationState) :
  same_reads s s' ->
  response_of host request token s = response_of host request token s'.
Proof.
  intros Hsame. destruct (command_is "integrate" request) eqn:Hc.
  - by apply integrate_response.
  - destruct (free_text request) eqn:Hf.
    + by apply flow_response.
    + by apply other_command_response.
Qed.

Lemma same_reads_responses (turns : list TurnInput) (s s' : ConversationState) :
  same_reads s s' -> responses turns s = responses turns s'.
Proof.
  revert s s'. induction turns as [| [[host request] token] rest IH]; intros s s' Hsame;
    [reflexivity |].
  cbn [responses]. f_equal.
  - by apply same_reads_response.
  - apply IH. by apply same_reads_state.
Qed.

Lemma same_reads_run_turns (turns : list TurnInput) (s s' : ConversationState) :
  same_reads s s' -> same_reads (run_turns turns s) (run_turns turns s').
Proof.
  revert s s'. induction turns as [| [[host request] token] rest IH]; intros s s' Hsame;
    [exact Hsame |].
  cbn [run_turns]. apply IH. by apply same_reads_state.
Qed.

(** C4, as the code has it.  After the alternative step only the step
    is put back, to [initial] once the generation has returned: the
    platform, the configuration, the path and the three function names
    stay in the session object.  None of them is read again: the
    responses to any further turns, the requests to the model with them,
    are those of a session object that holds the step and nothing else,
    and so are the values a later generation reads. *)
Theorem completed_values_kept_unread (host : Host) (request : ChatRequest)
  (token : CancellationToken) (s : ConversationState) :
  free_text request = true -> step s = alternative ->
  generation_result host token (capture_alternative (trim (prompt request)) s) = Ok tt ->
  let s' := state_after host request token s in
  s' = set_step initial (set_alternativeFunction (trim (prompt request)) s)
  /\ (step s' = initial
      /\ platform s' = platform s /\ motionwiseConfig s' = motionwiseConfig s
      /\ integrationPath s' = integrationPath s /\ memoryFunction s' = memoryFunction s
      /\ datasetFunction s' = datasetFunction s
      /\ alternativeFunction s' = Some (trim (prompt request)))
  /\ (forall turns : list TurnInput,
        responses turns s' = responses turns fresh_state
        /\ same_reads (run_turns turns s') (run_turns turns fresh_state)).
Proof.
  intros Hf Hs Hgen s'.
  assert (Hs' : s' = set_step initial (set_alternativeFunction (trim (prompt request)) s)).
  { subst s'. rewrite flow_state by done. unfold flow_writes. by rewrite Hs, Hgen. }
  split; [exact Hs' |]. rewrite Hs'. split; [repeat split |].
  assert (Hsame : same_reads
                    (set_step initial (set_alternativeFunction (trim (prompt request)) s))
                    fresh_state).
  { unfold same_reads. cbn. repeat split; intros; intuition discriminate. }
  intros turns. split.
  - by apply same_reads_responses.
  - by apply same_reads_run_turns.
Qed.

(** * More of the engine *)

(** ** The workspace analysis *)

Lemma detect_config_found (host : Host) (patterns : list (string * MotionWiseConfig))
  (cfg : MotionWiseConfig) :
  detect_config host patterns = Ok (Some cfg) ->
  exists pattern file files,
    In (pattern, cfg) patterns /\ search host pattern 1 = Ok (file :: files).
Proof.
  induction patterns as [| [pattern c] rest IH]; cbn [detect_config]; [discriminate |].
  fold (search host pattern 1).
  destruct (search host pattern 1) as [[| file files] | m] eqn:Hsearch;
    cbn [List.length Nat.ltb Nat.leb]; [| | discriminate].
  - intros Hrest. destruct (IH Hrest) as (pattern' & file & files & Hin & Hfound).
    exists pattern', file, files. split; [by right | exact Hfound].
  - intros [= <-]. exists pattern, file, files. split; [by left | exact Hsearch].
Qed.

Lemma detect_config_first (host : Host) (before after : list (string * MotionWiseConfig))
  (pattern : string) (cfg : MotionWiseConfig) (file : string) (files : list string) :
  Forall (fun entry => search host (fst entry) 1 = Ok []) before ->
  search host pattern 1 = Ok (file :: files) ->
  detect_config host (before ++ (pattern, cfg) :: after)%list = Ok (Some cfg).
Proof.
  intros Hbefore Hfound.
  induction Hbefore as [| [pattern' c] rest Hempty _ IH]; cbn [app detect_config].
  - fold (search host pattern 1). by rewrite Hfound.
  - fold (search host pattern' 1). cbn [fst] in Hempty. by rewrite Hempty.
Qed.

(** The parts of an analysis that returned. *)
Lemma analyzeWorkspace_parts (host : Host) (analysis : WorkspaceAnalysis) :
  analyzeWorkspace host = Ok analysis ->
  exists integrationFiles posixFiles headerFiles,
    search host "**/1800-EcuIntegration/**/dmiu/**/*.{c,h}" 10 = Ok integrationFiles
    /\ existingIntegrationFiles analysis = map (asRelativePath host) integrationFiles
    /\ detect_config host configPatterns = Ok (detectedMotionWiseConfig analysis)
    /\ search host "**/main.c" 5 = Ok posixFiles
    /\ detect_platform host posixFiles = Ok (detectedPlatform analysis)
    /\ search host "**/*.h" 100 = Ok headerFiles
    /\ find_functions host (take 50 headerFiles) [] []
       = Ok (memoryFunctions analysis, datasetFunctions analysis).
Proof.
  unfold analyzeWorkspace, search.
  destruct (findFiles host "**/1800-EcuIntegration/**/dmiu/**/*.{c,h}" _ _)
    as [integrationFiles | m] eqn:H1; [| discriminate].
  destruct (detect_config host configPatterns) as [detected | m] eqn:H2; [| discriminate].
  destruct (findFiles host "**/main.c" _ _) as [posixFiles | m] eqn:H3; [| discriminate].
  destruct (detect_platform host posixFiles) as [platform_found | m] eqn:H4;
    [| discriminate].
  destruct (findFiles host "**/*.h" _ _) as [headerFiles | m] eqn:H5; [| discriminate].
  destruct (find_functions host (take 50 headerFiles) [] []) as [[mem ds] | m] eqn:H6;
    [| discriminate].
  intros [= <-]. exists integrationFiles, posixFiles, headerFiles.
  cbn [existingIntegrationFiles detectedMotionWiseConfig detectedPlatform
       memoryFunctions datasetFunctions fst snd].
  repeat split; assumption.
Qed.

(** X1. The search for a configuration stops at the first pattern, in
    the order of the list, whose search finds a file: when the patterns
    before it find nothing, its configuration is the one detected,
    whatever the searches for the patterns after it would give, and it
    is the configuration that an analysis which returns reports. *)
Theorem detection_first_match (host : Host)
  (before after : list (string * MotionWiseConfig)) (pattern : string)
  (cfg : MotionWiseConfig) (file : string) (files : list string) :
  configPatterns = (before ++ (pattern, cfg) :: after)%list ->
  Forall (fun entry => search host (fst entry) 1 = Ok []) before ->
  search host pattern 1 = Ok (file :: files) ->
  detect_config host configPatterns = Ok (Some cfg)
  /\ (forall analysis, analyzeWorkspace host = Ok analysis ->
        detectedMotionWiseConfig analysis = Some cfg).
Proof.
  intros Hsplit Hbefore Hfound.
  assert (Hfirst : detect_config host configPatterns = Ok (Some cfg)).
  { rewrite Hsplit. by eapply detect_config_first. }
  split; [exact Hfirst |].
  intros analysis Hanalysis.
  destruct (analyzeWorkspace_parts host analysis Hanalysis)
    as (_ & _ & _ & _ & _ & Hdetect & _).
  rewrite Hfirst in Hdetect. by injection Hdetect as <-.
Qed.

(** X2. When the analysis reports a configuration, a begin-integration
    directive with the token [motionwise] never asks for one: the
    reported configuration is neither [generic] nor [unknown], its path
    is the string the catalog holds for it, and the session goes straight
    to [memory] with the configuration, the path and the platform [posix]
    written. *)
Theorem detected_configuration_skips_selection (host : Host) (request : ChatRequest)
  (token : CancellationToken) (s : ConversationState) (analysis : WorkspaceAnalysis)
  (detected : MotionWiseConfig) :
  command_is "integrate" request = true ->
  toLowerCase (trim (prompt request)) = "motionwise" ->
  analyzeWorkspace host = Ok analysis ->
  detectedMotionWiseConfig analysis = Some detected ->
  detected <> generic /\ detected <> unknown
  /\ exists path : string,
       own_property MOTIONWISE_PATHS (config_name detected) = Some path
       /\ state_after host request token s
          = set_step memory
              (set_integrationPath (Some (JStr path))
                 (set_motionwiseConfig (JStr (config_name detected))
                    (set_platform posix s))).
Proof.
  intros Hc Hin Hanalysis Hdetected.
  destruct (analyzeWorkspace_parts host analysis Hanalysis)
    as (_ & _ & _ & _ & _ & Hdetect & _).
  rewrite Hdetected in Hdetect.
  destruct (detect_config_found host configPatterns detected Hdetect)
    as (pattern & _ & _ & Hentry & _).
  rewrite integrate_state by done. unfold integrate_writes, valid_token.
  rewrite Hin, Hanalysis, Hdetected.
  change ("motionwise" =? "posix")%string with false.
  change ("motionwise" =? "autosar")%string with false.
  change ("motionwise" =? "motionwise")%string with true.
  cbn [orb].
  cbn [configPatterns In] in Hentry.
  destruct Hentry as [[= _ <-] | [[= _ <-] | [[= _ <-] | [[= _ <-] | [[= _ <-] | []]]]]];
    (split; [discriminate | split; [discriminate | eexists; split; reflexivity]]).
Qed.

Lemma list_includes_snoc (l : list string) (x : string) :
  list_includes (l ++ [x])%list x = true.
Proof.
  unfold list_includes. rewrite existsb_app. cbn [existsb].
  rewrite String.eqb_refl. by rewrite orb_true_r.
Qed.

Lemma has_marker_read (host : Host) (marker file content : string) :
  readFile host file = Ok content -> has_marker host marker file = includes content marker.
Proof. unfold has_marker. by intros ->. Qed.

(** The loop over the headers, with whatever the two lists hold when it
    starts. *)
Lemma find_functions_spec (host : Host) (files memoryFns datasetFns mem ds : list string) :
  find_functions host files memoryFns datasetFns = Ok (mem, ds) ->
  mem = (if existsb (has_marker host "ShmM_MapOwner") files
            && negb (list_includes memoryFns "ShmM_MapOwner")
         then memoryFns ++ ["ShmM_MapOwner"] else memoryFns)%list
  /\ ds = (if existsb (has_marker host "Per_DS_Read") files
              && negb (list_includes datasetFns "Per_DS_ReadDSElementDMIU")
           then datasetFns ++ ["Per_DS_ReadDSElementDMIU"] else datasetFns)%list.
Proof.
  revert memoryFns datasetFns.
  induction files as [| file rest IH]; intros memoryFns datasetFns; cbn [find_functions].
  - intros [= <- <-]. split; reflexivity.
  - destruct (readFile host file) as [content | m] eqn:Hread; [| discriminate].
    intros Hrest. apply IH in Hrest as [-> ->]. cbn [existsb].
    rewrite !(has_marker_read host _ file content Hread).
    split.
    + destruct (includes content "ShmM_MapOwner"),
        (list_includes memoryFns "ShmM_MapOwner") eqn:Hin;
        cbn [andb orb negb]; rewrite ?Hin, ?list_includes_snoc, ?andb_false_r;
        cbn [andb orb negb]; reflexivity.
    + destruct (includes content "Per_DS_Read"),
        (list_includes datasetFns "Per_DS_ReadDSElementDMIU") eqn:Hin;
        cbn [andb orb negb]; rewrite ?Hin, ?list_includes_snoc, ?andb_false_r;
        cbn [andb orb negb]; reflexivity.
Qed.

(** X3. The two lists of functions an analysis reports hold at most one
    name each, never one twice.  [ShmM_MapOwner] is listed when one of
    the first fifty header files holds that name.  The dataset function
    listed is always [Per_DS_ReadDSElementDMIU], and it is listed as soon
    as one of these files holds the shorter text [Per_DS_Read].  Header
    files after the fiftieth have no part in it. *)
Theorem function_lists (host : Host) (analysis : WorkspaceAnalysis)
  (headerFiles : list string) :
  analyzeWorkspace host = Ok analysis ->
  search host "**/*.h" 100 = Ok headerFiles ->
  memoryFunctions analysis
  = (if existsb (has_marker host "ShmM_MapOwner") (take 50 headerFiles)
     then ["ShmM_MapOwner"] else [])
  /\ datasetFunctions analysis
     = (if existsb (has_marker host "Per_DS_Read") (take 50 headerFiles)
        then ["Per_DS_ReadDSElementDMIU"] else [])
  /\ NoDup (memoryFunctions analysis) /\ NoDup (datasetFunctions analysis).
Proof.
  intros Hanalysis Hheaders.
  destruct (analyzeWorkspace_parts host analysis Hanalysis)
    as (_ & _ & headers' & _ & _ & _ & _ & _ & Hsearch & Hfns).
  rewrite Hheaders in Hsearch. simplify_eq.
  apply find_functions_spec in Hfns as [-> ->]. cbn [list_includes existsb negb app].
  rewrite !andb_true_r.
  repeat split.
  - destruct (existsb _ _); [apply NoDup_singleton | apply NoDup_nil_2].
  - destruct (existsb _ _); [apply NoDup_singleton | apply NoDup_nil_2].
Qed.

Lemma find_functions_returns (host : Host) (files memoryFns datasetFns : list string) :
  Forall (readable host) files ->
  exists fns, find_functions host files memoryFns datasetFns = Ok fns.
Proof.
  intros Hall. revert memoryFns datasetFns.
  induction Hall as [| file rest [content Hread] _ IH]; intros memoryFns datasetFns;
    cbn [find_functions].
  - by eexists.
  - rewrite Hread. apply IH.
Qed.

Lemma find_functions_throws (host : Host) (before after memoryFns datasetFns : list string)
  (file message : string) :
  Forall (readable host) before -> readFile host file = Throw message ->
  find_functions host (before ++ file :: after)%list memoryFns datasetFns = Throw message.
Proof.
  intros Hall Hthrow. revert memoryFns datasetFns.
  induction Hall as [| g rest [content Hread] _ IH]; intros memoryFns datasetFns;
    cbn [app find_functions].
  - by rewrite Hthrow.
  - rewrite Hread. apply IH.
Qed.

Lemma detect_platform_returns (host : Host) (files : list string) :
  Forall (readable host) files -> exists found, detect_platform host files = Ok found.
Proof.
  induction 1 as [| file rest [content Hread] _ [found IH]]; cbn [detect_platform].
  - by eexists.
  - rewrite Hread. destruct (_ || _); by eexists.
Qed.

Lemma detect_config_returns (host : Host) (patterns : list (string * MotionWiseConfig)) :
  Forall (fun entry => exists files, search host (fst entry) 1 = Ok files) patterns ->
  exists found, detect_config host patterns = Ok found.
Proof.
  induction 1 as [| [pattern cfg] rest [files Hsearch] _ [found IH]]; cbn [detect_config].
  - by eexists.
  - cbn [fst] in Hsearch. fold (search host pattern 1). rewrite Hsearch.
    destruct (0 <? List.length files)%nat; by eexists.
Qed.

(** X4. The analysis returns when its searches return and the files it
    scans can be read: the entry points found, and the first fifty of the
    header files found.  A header file after the fiftieth need not be
    readable. *)
Theorem analysis_returns (host : Host) (integrationFiles posixFiles headerFiles : list string) :
  search host "**/1800-EcuIntegration/**/dmiu/**/*.{c,h}" 10 = Ok integrationFiles ->
  Forall (fun entry => exists files, search host (fst entry) 1 = Ok files) configPatterns ->
  search host "**/main.c" 5 = Ok posixFiles ->
  Forall (readable host) posixFiles ->
  search host "**/*.h" 100 = Ok headerFiles ->
  Forall (readable host) (take 50 headerFiles) ->
  exists analysis,
    analyzeWorkspace host = Ok analysis
    /\ existingIntegrationFiles analysis = map (asRelativePath host) integrationFiles.
Proof.
  intros Hintegration Hpatterns Hposix Hreadable Hheaders Hscanned.
  destruct (detect_config_returns host configPatterns Hpatterns) as [cfg Hcfg].
  destruct (detect_platform_returns host posixFiles Hreadable) as [found Hfound].
  destruct (find_functions_returns host (take 50 headerFiles) [] [] Hscanned)
    as [fns Hfns].
  unfold search in *. unfold analyzeWorkspace.
  rewrite Hintegration, Hcfg, Hposix, Hfound, Hheaders, Hfns. by eexists.
Qed.

(** X5. A header file among the first fifty that cannot be read makes
    the whole analysis throw, with the error of that read, whatever the
    searches and the files before it gave. *)
Theorem unreadable_header_fatal (host : Host)
  (integrationFiles posixFiles headerFiles before after : list string)
  (cfg : option MotionWiseConfig) (found : option Platform) (file message : string) :
  search host "**/1800-EcuIntegration/**/dmiu/**/*.{c,h}" 10 = Ok integrationFiles ->
  detect_config host configPatterns = Ok cfg ->
  search host "**/main.c" 5 = Ok posixFiles ->
  detect_platform host posixFiles = Ok found ->
  search host "**/*.h" 100 = Ok headerFiles ->
  take 50 headerFiles = (before ++ file :: after)%list ->
  Forall (readable host) before ->
  readFile host file = Throw message ->
  analyzeWorkspace host = Throw message.
Proof.
  intros Hintegration Hcfg Hposix Hfound Hheaders Hsplit Hbefore Hthrow.
  unfold search in *. unfold analyzeWorkspace.
  rewrite Hintegration, Hcfg, Hposix, Hfound, Hheaders, Hsplit.
  by rewrite (find_functions_throws host before after [] [] file message Hbefore Hthrow).
Qed.

Lemma posix_marked_read (host : Host) (file : string) :
  posix_marked host file = true ->
  exists content,
    readFile host file = Ok content
    /\ includes content "PFSW_BUILD_OS_POSIX" || includes content "ShmM" = true.
Proof.
  unfold posix_marked, has_marker.
  destruct (readFile host file) as [content | m]; [| discriminate].
  intros Hmarked. by exists content.
Qed.

Lemma detect_platform_first (host : Host) (before after : list string) (file : string) :
  Forall (fun g => readable host g /\ posix_marked host g = false) before ->
  posix_marked host file = true ->
  detect_platform host (before ++ file :: after)%list = Ok (Some posix).
Proof.
  intros Hbefore Hmarked.
  induction Hbefore as [| g rest [[content Hread] Hnot] _ IH]; cbn [app detect_platform].
  - destruct (posix_marked_read host file Hmarked) as (content & -> & ->). reflexivity.
  - unfold posix_marked, has_marker in Hnot. rewrite Hread in *. by rewrite Hnot.
Qed.

Lemma detect_platform_found (host : Host) (files : list string) (found : Platform) :
  detect_platform host files = Ok (Some found) ->
  found = posix /\ exists file, In file files /\ posix_marked host file = true.
Proof.
  induction files as [| file rest IH]; cbn [detect_platform]; [discriminate |].
  destruct (readFile host file) as [content | m] eqn:Hread; [| discriminate].
  destruct (includes content "PFSW_BUILD_OS_POSIX" || includes content "ShmM") eqn:Hmarked.
  - intros [= <-]. split; [reflexivity |]. exists file. split; [by left |].
    unfold posix_marked, has_marker. by rewrite Hread.
  - intros Hrest. destruct (IH Hrest) as (-> & g & Hin & Hg).
    split; [reflexivity |]. exists g. split; [by right | exact Hg].
Qed.

(** X6. The platform an analysis reports is [posix] or none, never
    [autosar], and it is [posix] only through an entry point that holds a
    marker.  The scan stops at the first such entry point: when the entry
    points before it can be read and hold no marker, and the other
    searches and the first fifty header files are as the analysis needs
    them, the analysis returns with [posix], whether or not the entry
    points after that file can be read. *)
Theorem platform_detection (host : Host) :
  (forall analysis, analyzeWorkspace host = Ok analysis ->
     detectedPlatform analysis <> Some autosar
     /\ (detectedPlatform analysis = Some posix ->
         exists posixFiles file,
           search host "**/main.c" 5 = Ok posixFiles /\ In file posixFiles
           /\ posix_marked host file = true))
  /\ (forall (integrationFiles headerFiles before after : list string) (file : string),
        search host "**/1800-EcuIntegration/**/dmiu/**/*.{c,h}" 10 = Ok integrationFiles ->
        Forall (fun entry => exists files, search host (fst entry) 1 = Ok files)
          configPatterns ->
        search host "**/main.c" 5 = Ok (before ++ file :: after)%list ->
        Forall (fun g => readable host g /\ posix_marked host g = false) before ->
        posix_marked host file = true ->
        search host "**/*.h" 100 = Ok headerFiles ->
        Forall (readable host) (take 50 headerFiles) ->
        detect_platform host (before ++ file :: after)%list = Ok (Some posix)
        /\ exists analysis,
             analyzeWorkspace host = Ok analysis
             /\ detectedPlatform analysis = Some posix).
Proof.
  split.
  - intros analysis Hanalysis.
    destruct (analyzeWorkspace_parts host analysis Hanalysis)
      as (_ & posixFiles & _ & _ & _ & _ & Hsearch & Hdetect & _).
    split.
    + intros Hautosar. rewrite Hautosar in Hdetect.
      by destruct (detect_platform_found host posixFiles autosar Hdetect).
    + intros Hposix. rewrite Hposix in Hdetect.
      destruct (detect_platform_found host posixFiles posix Hdetect)
        as (_ & file & Hin & Hm).
      by exists posixFiles, file.
  - intros integrationFiles headerFiles before after file
      Hintegration Hpatterns Hposix Hbefore Hmarked Hheaders Hscanned.
    pose proof (detect_platform_first host before after file Hbefore Hmarked) as Hfirst.
    split; [exact Hfirst |].
    destruct (detect_config_returns host configPatterns Hpatterns) as [cfg Hcfg].
    destruct (find_functions_returns host (take 50 headerFiles) [] [] Hscanned)
      as [fns Hfns].
    unfold search in *. unfold analyzeWorkspace.
    rewrite Hintegration, Hcfg, Hposix, Hfirst, Hheaders, Hfns. by eexists.
Qed.

(** ** The directives *)

Lemma list_files_run (files : list string) (t : Turn) :
  list_files files t
  = ({| session := session t;
        stream := (stream t ++ map (fun file => "✅ " +:+ file +:+ nl) files)%list |},
     Ok tt).
Proof.
  revert t. induction files as [| file rest IH]; intros t; cbn [list_files map].
  - by rewrite turn_app_nil.
  - unfold bind, markdown. rewrite IH. cbn [session stream]. by rewrite <- app_assoc.
Qed.

Lemma validate_dispatch (host : Host) (request : ChatRequest) (token : CancellationToken) :
  command_is "integrate" request = false -> command_is "validate" request = true ->
  handle_request host request token =
  try_catch (handleValidateCommand host token)
    (fun message => markdown (nl +:+ nl +:+ "❌ Error: " +:+ message +:+ nl)).
Proof. unfold handle_request. by intros -> ->. Qed.

Lemma adapter_dispatch (host : Host) (request : ChatRequest) (token : CancellationToken) :
  command_is "integrate" request = false -> command_is "validate" request = false ->
  command_is "adapter" request = true ->
  handle_request host request token =
  try_catch (handleAdapterCommand request token)
    (fun message => markdown (nl +:+ nl +:+ "❌ Error: " +:+ message +:+ nl)).
Proof. unfold handle_request. by intros -> -> ->. Qed.

Lemma command_is_exclusive (a b : string) (request : ChatRequest) :
  command_is a request = true -> a <> b -> command_is b request = false.
Proof.
  unfold command_is. destruct (command request) as [c |]; [| discriminate].
  intros Ha%String.eqb_eq Hne. apply String.eqb_neq. congruence.
Qed.

(** X7. When the workspace analysis throws, the turn that asked for it
    answers with the one error line and nothing else.  [/validate] leaves
    the session as it was.  A begin-integration directive with a known
    token has by then written the platform, and only the platform: the
    step and everything else are as before, so the question for the
    memory function is neither asked nor awaited. *)
Theorem analysis_failure_turn (host : Host) (request : ChatRequest)
  (token : CancellationToken) (s : ConversationState) (message : string) :
  analyzeWorkspace host = Throw message ->
  (command_is "validate" request = true ->
   response_of host request token s = [nl +:+ nl +:+ "❌ Error: " +:+ message +:+ nl]
   /\ state_after host request token s = s)
  /\ (command_is "integrate" request = true -> valid_token request = true ->
      response_of host request token s = [nl +:+ nl +:+ "❌ Error: " +:+ message +:+ nl]
      /\ state_after host request token s
         = set_platform
             (if (toLowerCase (trim (prompt request)) =? "autosar")%string
              then autosar else posix) s
      /\ step (state_after host request token s) = step s).
Proof.
  intros Hthrow. split.
  - intros Hv.
    assert (Hi : command_is "integrate" request = false)
      by (by apply (command_is_exclusive "validate")).
    unfold response_of, state_after. rewrite validate_dispatch by done.
    unfold handleValidateCommand. run_act. rewrite Hthrow. by split.
  - intros Hc Hv.
    assert (Hstate : state_after host request token s
                     = set_platform
                         (if (toLowerCase (trim (prompt request)) =? "autosar")%string
                          then autosar else posix) s).
    { rewrite integrate_state by done. unfold integrate_writes. rewrite Hv, Hthrow.
      destruct (toLowerCase (trim (prompt request)) =? "posix")%string eqn:Hp;
        [| reflexivity].
      apply String.eqb_eq in Hp. rewrite Hp. reflexivity. }
    split; [| split; [exact Hstate | by rewrite Hstate]].
    unfold response_of. rewrite integrate_dispatch by done.
    unfold handleIntegrateCommand. unfold valid_token in Hv.
    replace (negb (toLowerCase (trim (prompt request)) =? "posix")%string
             && negb (toLowerCase (trim (prompt request)) =? "autosar")%string
             && negb (toLowerCase (trim (prompt request)) =? "motionwise")%string)
      with false
      by (destruct (toLowerCase (trim (prompt request)) =? "posix")%string,
            (toLowerCase (trim (prompt request)) =? "autosar")%string,
            (toLowerCase (trim (prompt request)) =? "motionwise")%string;
          done).
    run_act. rewrite Hthrow. reflexivity.
Qed.

(** X8. [/validate] on an analysis that returned never touches the
    session.  Its response is the heading and then, when the search for
    integration files found nothing, the two lines that say so, or else
    one line per file found, in the order of the search, each under the
    name [asRelativePath] gives it. *)
Theorem validate_lists_files (host : Host) (request : ChatRequest)
  (token : CancellationToken) (s : ConversationState) (analysis : WorkspaceAnalysis)
  (integrationFiles : list string) :
  command_is "validate" request = true ->
  analyzeWorkspace host = Ok analysis ->
  search host "**/1800-EcuIntegration/**/dmiu/**/*.{c,h}" 10 = Ok integrationFiles ->
  state_after host request token s = s
  /\ response_of host request token s
     = ("## DMIU Integration Validation" +:+ nl +:+ nl)
         :: match integrationFiles with
            | [] =>
                [ "❌ No integration files found" +:+ nl +:+ nl;
                  "Run `@dfu /integrate posix` or `@dfu /integrate autosar` to start."
                    +:+ nl ]
            | _ =>
                ("### Found Integration Files:" +:+ nl +:+ nl)
                  :: map (fun uri => "✅ " +:+ asRelativePath host uri +:+ nl)
                       integrationFiles
            end.
Proof.
  intros Hv Hanalysis Hsearch.
  assert (Hi : command_is "integrate" request = false)
    by (by apply (command_is_exclusive "validate")).
  destruct (analyzeWorkspace_parts host analysis Hanalysis)
    as (files' & _ & _ & Hsearch' & Hexisting & _).
  assert (files' = integrationFiles) as -> by congruence.
  unfold response_of, state_after. rewrite validate_dispatch by done.
  unfold handleValidateCommand. run_act. rewrite Hanalysis. run_act.
  rewrite Hexisting. destruct integrationFiles as [| uri rest]; [by split |].
  cbn [map List.length Nat.eqb]. run_act. rewrite list_files_run.
  cbn [fst session stream app map]. rewrite map_map. by split.
Qed.

(** X9. [/adapter] asks neither the workspace nor the session: its
    response is a function of the trimmed text alone, the hint when that
    is empty and the four questions about the named function otherwise,
    and the session is as before. *)
Theorem adapter_stateless (host : Host) (request : ChatRequest)
  (token : CancellationToken) (s : ConversationState) :
  command_is "adapter" request = true ->
  state_after host request token s = s
  /\ response_of host request token s
     = (if (trim (prompt request) =? EmptyString)%string
        then [ "Please provide a function name." +:+ nl +:+ nl;
               "**Example:** `@dfu /adapter MyDatasetFunction`" +:+ nl ]
        else [ "## Generating Adapter for `" +:+ trim (prompt request) +:+ "`"
                 +:+ nl +:+ nl;
               "What does this function return?" +:+ nl +:+ nl;
               "- String (e.g., " +:+ dq +:+ "debug_level_2" +:+ dq +:+ ")" +:+ nl;
               "- Integer (0/1/2)" +:+ nl;
               "- Boolean" +:+ nl;
               "- Compatible type" +:+ nl ])
  /\ (forall host' token' s',
        response_of host' request token' s' = response_of host request token s).
Proof.
  intros Ha.
  assert (Hi : command_is "integrate" request = false)
    by (by apply (command_is_exclusive "adapter")).
  assert (Hv : command_is "validate" request = false)
    by (by apply (command_is_exclusive "adapter")).
  unfold response_of, state_after.
  split; [| split; [| intros host' token' s']]; rewrite !adapter_dispatch by done;
    unfold handleAdapterCommand;
    destruct (trim (prompt request) =? EmptyString)%string; reflexivity.
Qed.

(** X16. A begin-integration directive is a restart that forgets
    nothing: it leaves the three function names of the session as they
    were, whatever the token and the analysis; and the same directive a
    second time, on the same workspace, changes nothing more. *)
Theorem integrate_restart (host : Host) (request : ChatRequest)
  (token token' : CancellationToken) (s : ConversationState) :
  command_is "integrate" request = true ->
  let s' := state_after host request token s in
  memoryFunction s' = memoryFunction s
  /\ datasetFunction s' = datasetFunction s
  /\ alternativeFunction s' = alternativeFunction s
  /\ state_after host request token' s' = s'.
Proof.
  intros Hc s'. subst s'. rewrite !integrate_state by done. unfold integrate_writes.
  destruct (valid_token request); [| by repeat split].
  destruct (analyzeWorkspace host) as [analysis | m]; [| by repeat split].
  destruct (toLowerCase (trim (prompt request)) =? "motionwise")%string;
    [| by repeat split].
  destruct (detectedMotionWiseConfig analysis) as [[] |]; by repeat split.
Qed.

(** ** The choice of a configuration *)

Lemma own_property_in (own : list (string * string)) (key value : string) :
  own_property own key = Some value -> In (key, value) own.
Proof.
  induction own as [| [k v] rest IH]; cbn [own_property]; [discriminate |].
  destruct (k =? key)%string eqn:Hk.
  - apply String.eqb_eq in Hk as ->. intros [= ->]. by left.
  - intros Hrest. right. by apply IH.
Qed.

Lemma existsb_eqb_in (key : string) (l : list string) :
  existsb (String.eqb key) l = true -> In key l.
Proof.
  induction l as [| x rest IH]; cbn [existsb]; [discriminate |].
  destruct (key =? x)%string eqn:Hk.
  - apply String.eqb_eq in Hk as ->. by left.
  - intros Hrest. right. by apply IH.
Qed.

(** Every identifier has its own entry in the catalog. *)
Lemma catalog_entry (c : MotionWiseConfig) :
  exists path, own_property MOTIONWISE_PATHS (config_name c) = Some path.
Proof. destruct c; by eexists. Qed.

(** A key of the catalog is the name of an identifier. *)
Lemma catalog_key (key path : string) :
  own_property MOTIONWISE_PATHS key = Some path -> exists c, key = config_name c.
Proof.
  intros Hown%own_property_in. cbn [MOTIONWISE_PATHS In] in Hown.
  destruct Hown as [[= <- _] | [[= <- _] | [[= <- _] | [[= <- _] | [[= <- _]
    | [[= <- _] | [[= <- _] | []]]]]]]];
    [by exists cp_rdb2 | by exists cp_rdb3 | by exists sv62 | by exists s324sdv
     | by exists ch63_2 | by exists generic | by exists unknown].
Qed.

(** An identifier and its path are both truthy. *)
Lemma catalog_path_truthy (c : MotionWiseConfig) (path : string) :
  own_property MOTIONWISE_PATHS (config_name c) = Some path ->
  truthy (Some (JStr (config_name c))) && truthy (Some (JStr path)) = true.
Proof. destruct c; vm_compute; intros [= <-]; reflexivity. Qed.

(** A member that is inherited, taken as a key, finds nothing in the
    catalog. *)
Lemma inherited_key_finds_nothing (member : string) :
  In member object_prototype ->
  truthy (get_property MOTIONWISE_PATHS (js_to_string (JInherited member))) = false.
Proof.
  cbn [object_prototype In].
  intros [<- | [<- | [<- | [<- | [<- | [<- | [<- | [<- | [<- | [<- | [<- | [<- | []]]]]]]]]]]]];
    reflexivity.
Qed.

Lemma config_step_state (host : Host) (request : ChatRequest) (token : CancellationToken)
  (s : ConversationState) :
  free_text request = true -> step s = config ->
  config_accepted (trim (prompt request)) = true ->
  state_after host request token s
  = set_step memory
      (set_integrationPath
         (get_property MOTIONWISE_PATHS
            (js_to_string (selectedConfig (trim (prompt request)))))
         (set_motionwiseConfig (selectedConfig (trim (prompt request))) s)).
Proof.
  intros Hf Hs Ha. rewrite flow_state by done. unfold flow_writes. by rewrite Hs, Ha.
Qed.

(** X10. Each of the numbers the question offers, 1 to 6, stands for an
    identifier that has an entry in the catalog: a reply with such a
    number is accepted, and the session records the identifier and the
    path string of the catalog and moves to [memory]. *)
Theorem numbered_choice (host : Host) (request : ChatRequest) (token : CancellationToken)
  (s : ConversationState) (name : string) :
  free_text request = true -> step s = config ->
  own_property configMap (trim (prompt request)) = Some name ->
  exists (c : MotionWiseConfig) (path : string),
    name = config_name c /\ c <> unknown
    /\ own_property MOTIONWISE_PATHS name = Some path
    /\ config_accepted (trim (prompt request)) = true
    /\ state_after host request token s
       = set_step memory
           (set_integrationPath (Some (JStr path)) (set_motionwiseConfig (JStr name) s)).
Proof.
  intros Hf Hs Hown.
  assert (Hselected : selectedConfig (trim (prompt request)) = JStr name
                      /\ exists c path, name = config_name c /\ c <> unknown
                           /\ own_property MOTIONWISE_PATHS name = Some path).
  { pose proof (own_property_in _ _ _ Hown) as Hin.
    unfold selectedConfig, get_property. rewrite Hown.
    cbn [configMap In] in Hin.
    destruct Hin as [[= _ <-] | [[= _ <-] | [[= _ <-] | [[= _ <-] | [[= _ <-]
      | [[= _ <-] | []]]]]]];
      (split; [reflexivity |]);
      [exists cp_rdb2 | exists cp_rdb3 | exists sv62 | exists s324sdv | exists ch63_2
       | exists generic]; eexists; (split; [reflexivity | split; [discriminate | reflexivity]]). }
  destruct Hselected as (Hselected & c & path & -> & Hc & Hpath).
  assert (Haccepted : config_accepted (trim (prompt request)) = true).
  { unfold config_accepted. rewrite Hselected. cbn [js_to_string].
    unfold get_property. rewrite Hpath. by apply catalog_path_truthy. }
  exists c, path. repeat split; try done.
  rewrite config_step_state by done. rewrite Hselected. cbn [js_to_string].
  unfold get_property. by rewrite Hpath.
Qed.

(** X11. A reply that is no number of the list and no name of an
    inherited member is taken by its lower-cased text: when that is the
    name of an identifier of the catalog ([unknown], which the question
    does not offer, among them), the reply is accepted with the
    catalog's path for it. *)
Theorem named_choice (host : Host) (request : ChatRequest) (token : CancellationToken)
  (s : ConversationState) (c : MotionWiseConfig) :
  free_text request = true -> step s = config ->
  own_property configMap (trim (prompt request)) = None ->
  existsb (String.eqb (trim (prompt request))) object_prototype = false ->
  toLowerCase (trim (prompt request)) = config_name c ->
  exists path : string,
    own_property MOTIONWISE_PATHS (config_name c) = Some path
    /\ config_accepted (trim (prompt request)) = true
    /\ state_after host request token s
       = set_step memory
           (set_integrationPath (Some (JStr path))
              (set_motionwiseConfig (JStr (config_name c)) s)).
Proof.
  intros Hf Hs Hown Hproto Hlower.
  destruct (catalog_entry c) as [path Hpath]. exists path.
  assert (Hselected : selectedConfig (trim (prompt request)) = JStr (config_name c)).
  { unfold selectedConfig, get_property. by rewrite Hown, Hproto, Hlower. }
  assert (Haccepted : config_accepted (trim (prompt request)) = true).
  { unfold config_accepted. rewrite Hselected. cbn [js_to_string].
    unfold get_property. rewrite Hpath. by apply catalog_path_truthy. }
  repeat split; try done.
  rewrite config_step_state by done. rewrite Hselected. cbn [js_to_string].
  unfold get_property. by rewrite Hpath.
Qed.

(** The three ways [selectedConfig] comes about. *)
Lemma selectedConfig_cases (userMessage : string) :
  (exists c : MotionWiseConfig,
      own_property configMap userMessage = Some (config_name c)
      /\ selectedConfig userMessage = JStr (config_name c))
  \/ (own_property configMap userMessage = None
      /\ In userMessage object_prototype
      /\ selectedConfig userMessage = JInherited userMessage)
  \/ (own_property configMap userMessage = None
      /\ existsb (String.eqb userMessage) object_prototype = false
      /\ selectedConfig userMessage = JStr (toLowerCase userMessage)).
Proof.
  unfold selectedConfig, get_property.
  destruct (own_property configMap userMessage) as [name |] eqn:Hown.
  - left. apply own_property_in in Hown. cbn [configMap In] in Hown.
    destruct Hown as [[= _ <-] | [[= _ <-] | [[= _ <-] | [[= _ <-] | [[= _ <-]
      | [[= _ <-] | []]]]]]];
      [exists cp_rdb2 | exists cp_rdb3 | exists sv62 | exists s324sdv | exists ch63_2
       | exists generic]; split; reflexivity.
  - destruct (existsb (String.eqb userMessage) object_prototype) eqn:Hproto.
    + right. left. apply existsb_eqb_in in Hproto. by repeat split.
    + right. right. by repeat split.
Qed.

(** X12. What a reply is accepted for is an identifier of the catalog,
    and then the path recorded is the catalog's string; or else its
    lower-cased text is the name of a member that every object inherits,
    such as [constructor], and then what is recorded for the path is that
    member and no string.  A reply that is such a name letter for letter
    is rejected. *)
Theorem accepted_selection_kinds (userMessage : string) :
  (config_accepted userMessage = true ->
   (exists (c : MotionWiseConfig) (path : string),
       selectedConfig userMessage = JStr (config_name c)
       /\ own_property MOTIONWISE_PATHS (config_name c) = Some path
       /\ get_property MOTIONWISE_PATHS (js_to_string (selectedConfig userMessage))
          = Some (JStr path))
   \/ (In (toLowerCase userMessage) object_prototype
       /\ selectedConfig userMessage = JStr (toLowerCase userMessage)
       /\ get_property MOTIONWISE_PATHS (js_to_string (selectedConfig userMessage))
          = Some (JInherited (toLowerCase userMessage))))
  /\ (In userMessage object_prototype -> config_accepted userMessage = false).
Proof.
  split.
  - unfold config_accepted.
    destruct (selectedConfig_cases userMessage)
      as [(c & _ & ->) | [(_ & Hproto & ->) | (_ & _ & ->)]].
    + intros _. left. destruct (catalog_entry c) as [path Hpath]. exists c, path.
      cbn [js_to_string]. unfold get_property. rewrite Hpath. by repeat split.
    + rewrite (inherited_key_finds_nothing userMessage Hproto). by rewrite andb_false_r.
    + cbn [js_to_string]. unfold get_property.
      destruct (own_property MOTIONWISE_PATHS (toLowerCase userMessage))
        as [path |] eqn:Hpath.
      * intros _. left. destruct (catalog_key _ _ Hpath) as [c Hc].
        exists c, path. rewrite <- Hc. by repeat split.
      * destruct (existsb (String.eqb (toLowerCase userMessage)) object_prototype)
          eqn:Hlower; [| by rewrite andb_false_r].
        intros _. right. apply existsb_eqb_in in Hlower. by repeat split.
  - intros Hproto. unfold config_accepted.
    destruct (selectedConfig_cases userMessage)
      as [(c & Hown & _) | [(_ & _ & ->) | (_ & Hnot & _)]].
    + exfalso. cbn [object_prototype In] in Hproto.
      destruct Hproto as [<- | [<- | [<- | [<- | [<- | [<- | [<- | [<- | [<- | [<- | [<-
        | [<- | []]]]]]]]]]]]]; discriminate Hown.
    + rewrite (inherited_key_finds_nothing userMessage Hproto). by rewrite andb_false_r.
    + exfalso. assert (existsb (String.eqb userMessage) object_prototype = true);
        [| congruence].
      apply existsb_exists. exists userMessage. split; [exact Hproto |].
      apply String.eqb_refl.
Qed.

(** ** Selections that match no entry *)

(** For a selection that matches no entry, the test of the code comes
    down to the inherited members. *)
Lemma unmatched_accepted (userMessage : string) :
  matched_selection userMessage = false ->
  config_accepted userMessage = inherited_selection userMessage.
Proof.
  unfold matched_selection, inherited_selection.
  destruct (own_property configMap userMessage) eqn:Hnumber; [discriminate |].
  destruct (own_property MOTIONWISE_PATHS (toLowerCase userMessage)) eqn:Hname;
    [discriminate |].
  intros _. unfold config_accepted, selectedConfig.
  unfold get_property at 1 3. rewrite Hnumber.
  destruct (existsb (String.eqb userMessage) object_prototype) eqn:Hmember.
  - cbn [truthy negb andb].
    by rewrite (inherited_key_finds_nothing userMessage (existsb_eqb_in _ _ Hmember)).
  - cbn [js_to_string negb andb]. unfold get_property. rewrite Hname.
    destruct (existsb (String.eqb (toLowerCase userMessage)) object_prototype)
      eqn:Hlower; [| by rewrite andb_false_r].
    apply existsb_eqb_in in Hlower. cbn [object_prototype In] in Hlower.
    destruct Hlower
      as [<- | [<- | [<- | [<- | [<- | [<- | [<- | [<- | [<- | [<- | [<- | [<- | []]]]]]]]]]]]];
      reflexivity.
Qed.

(** What such a selection is taken for when the code accepts it. *)
Lemma inherited_selection_taken (userMessage : string) :
  matched_selection userMessage = false ->
  inherited_selection userMessage = true ->
  selectedConfig userMessage = JStr (toLowerCase userMessage)
  /\ get_property MOTIONWISE_PATHS (toLowerCase userMessage)
     = Some (JInherited (toLowerCase userMessage)).
Proof.
  unfold matched_selection, inherited_selection.
  destruct (own_property configMap userMessage) eqn:Hnumber; [discriminate |].
  destruct (own_property MOTIONWISE_PATHS (toLowerCase userMessage)) eqn:Hname;
    [discriminate |].
  intros _ [Hmember Hlower]%andb_prop. apply negb_true_iff in Hmember.
  unfold selectedConfig, get_property. by rewrite Hnumber, Hmember, Hname, Hlower.
Qed.

(** X23. An input that is to be turned down (an unknown platform token,
    a selection that matches no entry, free text before any directive)
    leaves the whole session object as it was, also when it is sent again
    and again with whatever the host answers, in every case but one: a
    selection at the configuration step that is no name of an inherited
    member while its lower-cased text is one.  That selection is
    accepted: the session moves to [memory] with the lower-cased text as
    the configuration and the inherited member, no string, as the
    path. *)
Theorem unmatched_input_outcome (request : ChatRequest) (s : ConversationState) :
  rejected request s = true ->
  let userMessage := trim (prompt request) in
  (command_is "integrate" request = true \/ step s <> config
   \/ inherited_selection userMessage = false ->
   (forall host token, state_after host request token s = s)
   /\ (forall turns : list (Host * CancellationToken),
         run_turns (repeated request turns) s = s))
  /\ (command_is "integrate" request = false -> step s = config ->
      inherited_selection userMessage = true ->
      forall host token,
        state_after host request token s
        = set_step memory
            (set_integrationPath (Some (JInherited (toLowerCase userMessage)))
               (set_motionwiseConfig (JStr (toLowerCase userMessage)) s))).
Proof.
  intros Hr userMessage. subst userMessage. split.
  - intros Hsafe.
    assert (Hone : forall host token, state_after host request token s = s).
    { intros host token. unfold rejected in Hr.
      destruct (command_is "integrate" request) eqn:Hc.
      - rewrite integrate_state by done. unfold integrate_writes.
        by destruct (valid_token request).
      - apply andb_prop in Hr as [Hf Hstep]. rewrite flow_state by done.
        unfold flow_writes. destruct (step s) eqn:Hs; try discriminate; [reflexivity |].
        apply negb_true_iff in Hstep. rewrite (unmatched_accepted _ Hstep).
        destruct Hsafe as [? | [? | Hsafe]]; [done | done |].
        by rewrite Hsafe. }
    split; [exact Hone |].
    induction turns as [| [host token] rest IH]; [reflexivity |].
    cbn [repeated map run_turns]. rewrite Hone. exact IH.
  - intros Hc Hs Hinherited host token. unfold rejected in Hr. rewrite Hc, Hs in Hr.
    apply andb_prop in Hr as [Hf Hunmatched]. apply negb_true_iff in Hunmatched.
    destruct (inherited_selection_taken _ Hunmatched Hinherited) as [Hselected Hpath].
    rewrite config_step_state; [| done | done |].
    + rewrite Hselected. cbn [js_to_string]. by rewrite Hpath.
    + by rewrite (unmatched_accepted _ Hunmatched).
Qed.

(** X13. A configuration found by the analysis and the same
    configuration chosen by its number lead to the same session: the
    directive on a workspace where the configuration is detected leaves
    the session object that the directive on a workspace without a
    detection, followed by the number of that configuration, leaves. *)
Theorem detection_agrees_with_choice (detecting asking later : Host)
  (directive reply : ChatRequest) (token token' : CancellationToken)
  (s : ConversationState) (found none : WorkspaceAnalysis) (detected : MotionWiseConfig) :
  command_is "integrate" directive = true ->
  toLowerCase (trim (prompt directive)) = "motionwise" ->
  analyzeWorkspace detecting = Ok found ->
  detectedMotionWiseConfig found = Some detected ->
  analyzeWorkspace asking = Ok none ->
  detectedMotionWiseConfig none = None ->
  free_text reply = true ->
  own_property configMap (trim (prompt reply)) = Some (config_name detected) ->
  state_after later reply token' (state_after asking directive token s)
  = state_after detecting directive token s.
Proof.
  intros Hc Hin Hfound Hdetected Hnone Hnothing Hf Hreply.
  assert (Hask : state_after asking directive token s = set_step config (set_platform posix s)).
  { rewrite integrate_state by done. unfold integrate_writes, valid_token.
    rewrite Hin, Hnone, Hnothing. reflexivity. }
  assert (Hdetect : state_after detecting directive token s
                    = set_step memory
                        (set_integrationPath
                           (get_property MOTIONWISE_PATHS (config_name detected))
                           (set_motionwiseConfig (JStr (config_name detected))
                              (set_platform posix s)))).
  { destruct (analyzeWorkspace_parts detecting found Hfound)
      as (_ & _ & _ & _ & _ & Hconfig & _).
    rewrite Hdetected in Hconfig.
    destruct (detect_config_found detecting configPatterns detected Hconfig)
      as (pattern & _ & _ & Hentry & _).
    rewrite integrate_state by done. unfold integrate_writes, valid_token.
    rewrite Hin, Hfound, Hdetected.
    cbn [configPatterns In] in Hentry.
    destruct Hentry as [[= _ <-] | [[= _ <-] | [[= _ <-] | [[= _ <-] | [[= _ <-] | []]]]]];
      reflexivity. }
  rewrite Hask, Hdetect.
  assert (Hselected : selectedConfig (trim (prompt reply)) = JStr (config_name detected)).
  { unfold selectedConfig, get_property. rewrite Hreply. by destruct detected. }
  assert (Haccepted : config_accepted (trim (prompt reply)) = true).
  { unfold config_accepted. rewrite Hselected. cbn [js_to_string].
    destruct (catalog_entry detected) as [path Hpath].
    unfold get_property. rewrite Hpath. by apply catalog_path_truthy. }
  rewrite config_step_state by done. rewrite Hselected. reflexivity.
Qed.

(** ** The answer of the model *)

(** X18. With a model at hand, the alternative step sends it the
    knowledge text and the prompt built from the session as just written,
    to the first model of the list only, and passes the chunks of the
    answer on as they are, in their order, between its own two opening
    lines and its closing lines.  When the answer breaks off with an
    error, the chunks that came before it are in the response, the error
    line follows them in place of the closing lines, and the step stays
    [complete]. *)
Theorem model_answer_streamed (host : Host) (request : ChatRequest)
  (token : CancellationToken) (s : ConversationState) (model : LanguageModel)
  (others : list LanguageModel) (response : ChatResponse) :
  free_text request = true -> step s = alternative ->
  selectChatModels host = Ok (Some (model :: others)) ->
  sendRequest model
    [DFU_KNOWLEDGE;
     buildCodeGenerationPrompt (capture_alternative (trim (prompt request)) s)] token
  = Ok response ->
  response_of host request token s
  = ([ "✅ Alternative: `" +:+ trim (prompt request) +:+ "`" +:+ nl +:+ nl;
       "## Generating Integration Files..." +:+ nl +:+ nl ]
       ++ text response
       ++ match text_failure response with
          | None =>
              [ nl +:+ nl +:+ "✅ **Integration complete!**" +:+ nl +:+ nl;
                "Next steps:" +:+ nl;
                "1. Review generated files" +:+ nl;
                "2. Compile and test" +:+ nl;
                "3. Use `@dfu /validate` to check" +:+ nl ]
          | Some message => [nl +:+ nl +:+ "❌ Error: " +:+ message +:+ nl]
          end)%list
  /\ step (state_after host request token s)
     = match text_failure response with
       | None => initial
       | Some _ => complete
       end.
Proof.
  intros Hf Hs Hmodels Hsend.
  unfold response_of, state_after. rewrite free_text_dispatch by done.
  unfold handleConversationFlow, generateIntegrationCode. run_act. rewrite Hs.
  run_act. rewrite Hmodels. unfold capture_alternative in Hsend. rewrite Hsend.
  rewrite forward_chunks_run. cbn [session stream].
  destruct (text_failure response) as [message |]; cbn [fst snd session stream step set_step];
    (split; [| reflexivity]);
    cbn [app]; rewrite <- ?app_assoc; reflexivity.
Qed.

(** ** The participant and its table *)

Lemma get_or_create_table (p : Participant) (K : Z) :
  conversationStates (fst (get_or_create p K))
  = <[K + 1 := snd (get_or_create p K)]> (conversationStates p).
Proof.
  unfold get_or_create. by destruct (find_state (conversationStates p) K).
Qed.

Lemma get_or_create_new (p : Participant) (K : Z) :
  conversationStates p !! K = None -> conversationStates p !! (K - 1) = None ->
  snd (get_or_create p K) = List.length (objects p)
  /\ objects (fst (get_or_create p K)) !! snd (get_or_create p K) = Some fresh_state.
Proof.
  intros HK HK1. unfold get_or_create, find_state. rewrite HK, HK1.
  cbn [fst snd objects]. split; [reflexivity |].
  by rewrite lookup_app_r, Nat.sub_diag.
Qed.

(** X14. A turn of the participant writes to one session object, the
    one its lookup gave, and adds one entry to the table, under the
    history length plus one.  Every other object is as before, every
    other entry of the table is as before, no entry is ever removed, and
    at most one object is made. *)
Theorem participant_frame (host : Host) (request : ChatRequest) (history_length : nat)
  (token : CancellationToken) (p : Participant) :
  well_formed p ->
  let object := snd (get_or_create p (Z.of_nat history_length)) in
  let p' := fst (participant host request history_length token p) in
  conversationStates p' = <[Z.of_nat history_length + 1 := object]> (conversationStates p)
  /\ (forall k : Z,
        k <> Z.of_nat history_length + 1 ->
        conversationStates p' !! k = conversationStates p !! k)
  /\ (forall i : nat,
        i <> object -> (i < List.length (objects p))%nat ->
        objects p' !! i = objects p !! i)
  /\ (List.length (objects p) <= List.length (objects p')
      <= S (List.length (objects p)))%nat.
Proof.
  intros Hwf object p'.
  destruct (participant_turn host request history_length token p Hwf)
    as (state & Hstate & Hturn).
  subst p'. rewrite Hturn. cbn [fst objects conversationStates]. fold object.
  pose proof (get_or_create_table p (Z.of_nat history_length)) as Htable.
  fold object in Htable.
  assert (Hobjects : objects (fst (get_or_create p (Z.of_nat history_length))) = objects p
                     \/ objects (fst (get_or_create p (Z.of_nat history_length)))
                        = (objects p ++ [fresh_state])%list).
  { unfold get_or_create.
    destruct (find_state (conversationStates p) (Z.of_nat history_length));
      [by left | by right]. }
  split; [exact Htable |]. split; [| split].
  - intros k Hk. rewrite Htable. by rewrite lookup_insert_ne.
  - intros i Hi Hlt. rewrite list_lookup_insert_ne by done.
    destruct Hobjects as [-> | ->]; [reflexivity | by rewrite lookup_app_l].
  - rewrite length_insert. destruct Hobjects as [-> | ->]; [lia |].
    rewrite length_app. cbn [List.length]. lia.
Qed.

Lemma keys_positive_activate : keys_positive activate.
Proof. intros k o. unfold activate. cbn [conversationStates]. by rewrite lookup_empty. Qed.

Lemma participant_keys_positive (host : Host) (request : ChatRequest)
  (history_length : nat) (token : CancellationToken) (p : Participant) :
  keys_positive p -> keys_positive (fst (participant host request history_length token p)).
Proof.
  intros Hkeys k o.
  assert (Htable : conversationStates (fst (participant host request history_length token p))
                   = <[Z.of_nat history_length + 1
                       := snd (get_or_create p (Z.of_nat history_length))]>
                       (conversationStates p)).
  { unfold participant.
    pose proof (get_or_create_table p (Z.of_nat history_length)) as Ht.
    destruct (get_or_create p (Z.of_nat history_length)) as [p1 object].
    cbn [fst snd] in *. by destruct (objects p1 !! object). }
  rewrite Htable, lookup_insert. case_decide; [lia | apply Hkeys].
Qed.

(** X15. A table without a key below 1, as it is at activation, has
    none after a turn either.  On such a table a request with no earlier
    turn finds nothing under 0 and nothing under -1: a new conversation
    always gets a session object of its own, at the step [initial], and
    never one that another conversation has left. *)
Theorem new_conversation_fresh (host : Host) (request : ChatRequest)
  (history_length : nat) (token : CancellationToken) (p : Participant) :
  keys_positive p ->
  keys_positive (fst (participant host request history_length token p))
  /\ snd (get_or_create p 0) = List.length (objects p)
  /\ objects (fst (get_or_create p 0)) !! snd (get_or_create p 0) = Some fresh_state
  /\ (forall i state, objects p !! i = Some state -> snd (get_or_create p 0) <> i).
Proof.
  intros Hkeys. split; [by apply participant_keys_positive |].
  assert (H0 : conversationStates p !! 0 = None).
  { destruct (conversationStates p !! 0) as [o |] eqn:Hk; [| reflexivity].
    apply Hkeys in Hk. lia. }
  assert (H1 : conversationStates p !! (0 - 1) = None).
  { destruct (conversationStates p !! (0 - 1)) as [o |] eqn:Hk; [| reflexivity].
    apply Hkeys in Hk. lia. }
  destruct (get_or_create_new p 0 H0 H1) as (Hobject & Hlookup).
  split; [exact Hobject | split; [exact Hlookup |]].
  intros i state Hi. rewrite Hobject. apply lookup_lt_Some in Hi. lia.
Qed.

Lemma participant_found (host : Host) (request : ChatRequest) (history_length : nat)
  (token : CancellationToken) (p : Participant) (object : nat) (state : ConversationState) :
  find_state (conversationStates p) (Z.of_nat history_length) = Some object ->
  objects p !! object = Some state ->
  participant host request history_length token p
  = ({| objects := <[object := state_after host request token state]> (objects p);
        conversationStates :=
          <[Z.of_nat history_length + 1 := object]> (conversationStates p) |},
     response_of host request token state).
Proof.
  intros Hfind Hstate. unfold participant, get_or_create. rewrite Hfind.
  cbn [objects conversationStates]. by rewrite Hstate.
Qed.

Lemma participant_new (host : Host) (request : ChatRequest) (history_length : nat)
  (token : CancellationToken) (p : Participant) :
  find_state (conversationStates p) (Z.of_nat history_length) = None ->
  participant host request history_length token p
  = ({| objects := (objects p ++ [state_after host request token fresh_state])%list;
        conversationStates :=
          <[Z.of_nat history_length + 1 := List.length (objects p)]>
            (conversationStates p) |},
     response_of host request token fresh_state).
Proof.
  intros Hfind. unfold participant, get_or_create. rewrite Hfind.
  cbn [objects conversationStates].
  rewrite lookup_app_r, Nat.sub_diag by lia. cbn [lookup list_lookup].
  replace (List.length (objects p)) with (List.length (objects p) + 0)%nat at 1 by lia.
  by rewrite insert_app_r.
Qed.

(** A conversation that goes on, on a table whose entries all hold the
    one session object there is. *)
Lemma converse_single (turns : list TurnInput) :
  forall (history_length : nat) (p : Participant) (s : ConversationState),
    objects p = [s] ->
    (forall k o, conversationStates p !! k = Some o -> o = 0%nat) ->
    is_Some (find_state (conversationStates p) (Z.of_nat history_length)) ->
    snd (converse turns history_length p) = responses turns s
    /\ objects (fst (converse turns history_length p)) = [run_turns turns s].
Proof.
  induction turns as [| [[host request] token] rest IH];
    intros history_length p s Hobjects Hzero [object Hfind];
    cbn [converse responses run_turns]; [by split |].
  assert (object = 0%nat) as ->.
  { unfold find_state in Hfind.
    destruct (conversationStates p !! Z.of_nat history_length) eqn:Hk;
      [injection Hfind as <- |]; by eapply Hzero. }
  rewrite (participant_found host request history_length token p 0%nat s Hfind)
    by (by rewrite Hobjects).
  rewrite Hobjects. cbn [insert list_insert].
  match goal with
  | |- context [converse rest ?h ?q] =>
      destruct (IH h q (state_after host request token s)) as [Hresponses Hfinal]
  end.
  - reflexivity.
  - intros k o. cbn [conversationStates]. rewrite lookup_insert.
    case_decide; [by intros [= <-] | apply Hzero].
  - unfold find_state. cbn [conversationStates].
    rewrite lookup_insert_ne by lia.
    replace (Z.of_nat (S (S history_length)) - 1) with (Z.of_nat history_length + 1)
      by lia.
    rewrite lookup_insert_eq.
    by destruct (conversationStates p !! Z.of_nat (S (S history_length))).
  - destruct (converse rest (S (S history_length)) _) as [p2 later].
    cbn [fst snd] in *. by rewrite Hresponses.
Qed.

(** X17. One conversation on a participant that has just been
    activated, each request coming with two more earlier turns than the
    one before: all its turns work on one and the same session object,
    made by the first of them.  The responses are those of the handler
    run turn after turn on that object, and the object holds what these
    runs leave. *)
Theorem conversation_run (turns : list TurnInput) :
  snd (converse turns 0 activate) = responses turns fresh_state
  /\ (turns <> [] ->
      objects (fst (converse turns 0 activate)) = [run_turns turns fresh_state]).
Proof.
  destruct turns as [| [[host request] token] rest]; [by split |].
  cbn [converse responses run_turns].
  rewrite (participant_new host request 0 token activate) by reflexivity.
  cbn [activate objects conversationStates app List.length].
  match goal with
  | |- context [converse rest ?h ?q] =>
      destruct (converse_single rest h q (state_after host request token fresh_state))
        as [Hresponses Hfinal]
  end.
  - reflexivity.
  - intros k o. cbn [conversationStates]. rewrite lookup_insert.
    case_decide; [by intros [= <-] | by rewrite lookup_empty].
  - exists 0%nat. reflexivity.
  - destruct (converse rest 2 _) as [p2 later]. cbn [fst snd] in *.
    split; [by rewrite Hresponses | by intros _].
Qed.

(** ** The variant without MotionWise *)

Lemma basic_integrate_dispatch (host : Host) (request : ChatRequest)
  (token : CancellationToken) :
  command_is "integrate" request = true ->
  Basic.handle_request host request token =
  try_catch (Basic.handleIntegrateCommand host request token)
    (fun message => markdown (nl +:+ nl +:+ "❌ Error: " +:+ message +:+ nl)).
Proof. unfold Basic.handle_request. intros ->. reflexivity. Qed.

Lemma basic_free_text_dispatch (host : Host) (request : ChatRequest)
  (token : CancellationToken) :
  free_text request = true ->
  Basic.handle_request host request token =
  try_catch (Basic.handleConversationFlow host request token)
    (fun message => markdown (nl +:+ nl +:+ "❌ Error: " +:+ message +:+ nl)).
Proof.
  unfold free_text, Basic.handle_request. intros Hf.
  destruct (command_is "integrate" request); [discriminate |].
  destruct (command_is "validate" request); [discriminate |].
  destruct (command_is "adapter" request); [discriminate |].
  reflexivity.
Qed.

Lemma basic_other_command_state (host : Host) (request : ChatRequest)
  (token : CancellationToken) (s : ConversationState) :
  command_is "integrate" request = false -> free_text request = false ->
  basic_state_after host request token s = s.
Proof.
  unfold free_text, basic_state_after, Basic.handle_request. intros -> Hf.
  cbn [negb andb] in Hf.
  destruct (command_is "validate" request).
  - unfold Basic.handleValidateCommand. crunch; reflexivity.
  - destruct (command_is "adapter" request); [| discriminate].
    unfold handleAdapterCommand. crunch; reflexivity.
Qed.

(** The generation of this variant writes to the stream only. *)
Lemma basic_generate_session (host : Host) (token : CancellationToken) (t : Turn) :
  session (fst (Basic.generateIntegrationCode host token t)) = session t.
Proof.
  unfold Basic.generateIntegrationCode. run_act.
  destruct (selectChatModels host) as [[[| model rest] |] | m]; run_act; try reflexivity.
  destruct (sendRequest model _ token) as [response | m]; [| reflexivity].
  by rewrite forward_chunks_run.
Qed.

(** The session object after a begin-integration directive, in this
    variant. *)
Lemma basic_integrate_state (host : Host) (request : ChatRequest)
  (token : CancellationToken) (s : ConversationState) :
  command_is "integrate" request = true ->
  basic_state_after host request token s
  = (if negb (toLowerCase (trim (prompt request)) =? "posix")%string
        && negb (toLowerCase (trim (prompt request)) =? "autosar")%string
     then s
     else set_step memory
            (set_platform
               (if (toLowerCase (trim (prompt request)) =? "posix")%string
                then posix else autosar) s)).
Proof.
  intros Hc. unfold basic_state_after. rewrite basic_integrate_dispatch by done.
  unfold Basic.handleIntegrateCommand.
  destruct (negb _ && negb _); [reflexivity |].
  run_act. destruct (Basic.analyzeWorkspace host) as [analysis | m]; [| reflexivity].
  destruct (detectedPlatform analysis); crunch; reflexivity.
Qed.

(** The session object after free text, in this variant. *)
Lemma basic_flow_state (host : Host) (request : ChatRequest) (token : CancellationToken)
  (s : ConversationState) :
  free_text request = true ->
  basic_state_after host request token s
  = match step s with
    | memory => set_step dataset (set_memoryFunction (trim (prompt request)) s)
    | dataset => set_step alternative (set_datasetFunction (trim (prompt request)) s)
    | alternative =>
        match snd (Basic.generateIntegrationCode host token
                     {| session := capture_alternative (trim (prompt request)) s;
                        stream := [ "✅ Alternative: `" +:+ trim (prompt request) +:+ "`"
                                      +:+ nl +:+ nl;
                                    "## Generating Integration Files..." +:+ nl +:+ nl ] |})
        with
        | Ok _ => set_step initial (capture_alternative (trim (prompt request)) s)
        | Throw _ => capture_alternative (trim (prompt request)) s
        end
    | initial | config | complete => s
    end.
Proof.
  intros Hf. unfold basic_state_after. rewrite basic_free_text_dispatch by done.
  unfold Basic.handleConversationFlow, capture_alternative. run_act.
  destruct (step s); try reflexivity. run_act. cbn [app].
  match goal with
  | |- context [Basic.generateIntegrationCode host token ?t] =>
      pose proof (basic_generate_session host token t) as Hsession;
      destruct (Basic.generateIntegrationCode host token t) as [t' [[] | m]]
  end; cbn [fst session] in Hsession; run_act; by rewrite Hsession.
Qed.

(** X19. In the variant without MotionWise a begin-integration directive
    with the token [posix] or [autosar] writes the platform and the step
    [memory] before it looks at the workspace: when the analysis then
    throws, the response is the error line alone, and the session waits
    for the memory function all the same.  Any other token, [motionwise]
    among them, leaves the session as it was. *)
Theorem basic_directive (host : Host) (request : ChatRequest) (token : CancellationToken)
  (s : ConversationState) :
  command_is "integrate" request = true ->
  let input := toLowerCase (trim (prompt request)) in
  (input = "posix" \/ input = "autosar" ->
   basic_state_after host request token s
   = set_step memory (set_platform (if (input =? "posix")%string then posix else autosar) s)
   /\ (forall message, Basic.analyzeWorkspace host = Throw message ->
       basic_response_of host request token s
       = [nl +:+ nl +:+ "❌ Error: " +:+ message +:+ nl]))
  /\ (input <> "posix" -> input <> "autosar" ->
      basic_state_after host request token s = s
      /\ basic_response_of host request token s
         = [ "## DFU Integration" +:+ nl +:+ nl;
             "Please specify platform: `posix` or `autosar`" +:+ nl +:+ nl;
             "**Example:** `@dfu /integrate posix`" +:+ nl ]).
Proof.
  intros Hc input. split.
  - intros Hinput.
    assert (Hvalid : negb (input =? "posix")%string && negb (input =? "autosar")%string
                     = false).
    { destruct Hinput as [-> | ->]; reflexivity. }
    split.
    + rewrite basic_integrate_state by done. fold input. by rewrite Hvalid.
    + intros message Hthrow. unfold basic_response_of.
      rewrite basic_integrate_dispatch by done. unfold Basic.handleIntegrateCommand.
      fold input. rewrite Hvalid. run_act. by rewrite Hthrow.
  - intros Hp Ha.
    assert (Hinvalid : negb (input =? "posix")%string && negb (input =? "autosar")%string
                       = true).
    { apply String.eqb_neq in Hp, Ha. by rewrite Hp, Ha. }
    split.
    + rewrite basic_integrate_state by done. fold input. by rewrite Hinvalid.
    + unfold basic_response_of. rewrite basic_integrate_dispatch by done.
      unfold Basic.handleIntegrateCommand. fold input. by rewrite Hinvalid.
Qed.

(** X20. The session objects of the variant without MotionWise keep to
    its narrower type: no turn writes the configuration or the path, and
    no turn moves a session to the step [config]. *)
Theorem basic_session_shape (host : Host) (request : ChatRequest)
  (token : CancellationToken) (s : ConversationState) :
  let s' := basic_state_after host request token s in
  motionwiseConfig s' = motionwiseConfig s
  /\ integrationPath s' = integrationPath s
  /\ (step s <> config -> step s' <> config).
Proof.
  intros s'. subst s'.
  destruct (command_is "integrate" request) eqn:Hc.
  - rewrite basic_integrate_state by done.
    destruct (negb _ && negb _); repeat split; try done.
  - destruct (free_text request) eqn:Hf; [| by rewrite basic_other_command_state].
    rewrite basic_flow_state by done. unfold capture_alternative.
    destruct (step s) eqn:Hs; try (repeat split; first [done | congruence]).
    destruct (snd (Basic.generateIntegrationCode _ _ _)); repeat split; done.
Qed.

(** X21. The two variants agree where the smaller one has a say.  Free
    text at the steps [initial], [memory], [dataset] and [complete]
    leaves the same session in both.  A begin-integration directive with
    the token [posix] or [autosar], on a workspace whose analysis
    returns, leaves the same session but for the path, which only the
    variant with MotionWise records. *)
Theorem variants_agree (host : Host) (request : ChatRequest) (token : CancellationToken)
  (s : ConversationState) :
  (free_text request = true -> step s <> config -> step s <> alternative ->
   state_after host request token s = basic_state_after host request token s)
  /\ (command_is "integrate" request = true ->
      toLowerCase (trim (prompt request)) = "posix"
      \/ toLowerCase (trim (prompt request)) = "autosar" ->
      forall analysis, analyzeWorkspace host = Ok analysis ->
      state_after host request token s
      = set_integrationPath
          (Some (JStr "1800-EcuIntegration/[PLATFORM]/core/development/dmiu"))
          (basic_state_after host request token s)).
Proof.
  split.
  - intros Hf Hconfig Halternative.
    rewrite flow_state, basic_flow_state by done. unfold flow_writes.
    by destruct (step s).
  - intros Hc Hinput analysis Hanalysis.
    rewrite integrate_state, basic_integrate_state by done.
    unfold integrate_writes, valid_token. rewrite Hanalysis.
    destruct Hinput as [-> | ->]; reflexivity.
Qed.

(** X22. The analysis of the variant without MotionWise is the other
    one without the search for a configuration: where the larger
    analysis returns, the smaller one returns the same platform, the same
    two lists of functions and the same integration files; and where the
    smaller one throws, the larger one throws as well. *)
Theorem basic_analysis (host : Host) :
  (forall analysis, analyzeWorkspace host = Ok analysis ->
     Basic.analyzeWorkspace host
     = Ok {| detectedPlatform := detectedPlatform analysis;
             detectedMotionWiseConfig := None;
             memoryFunctions := memoryFunctions analysis;
             datasetFunctions := datasetFunctions analysis;
             existingIntegrationFiles := existingIntegrationFiles analysis |})
  /\ (forall message, Basic.analyzeWorkspace host = Throw message ->
        exists message', analyzeWorkspace host = Throw message').
Proof.
  split.
  - intros analysis Hanalysis.
    destruct (analyzeWorkspace_parts host analysis Hanalysis)
      as (integrationFiles & posixFiles & headerFiles & H1 & H2 & _ & H3 & H4 & H5 & H6).
    unfold search in *. unfold Basic.analyzeWorkspace.
    rewrite H1, H3, H4, H5, H6. cbn [fst snd]. by rewrite H2.
  - intros message. unfold Basic.analyzeWorkspace, analyzeWorkspace.
    destruct (findFiles host "**/1800-EcuIntegration/**/dmiu/**/*.{c,h}" _ _)
      as [integrationFiles | m]; [| by eexists].
    destruct (detect_config host configPatterns) as [cfg | m]; [| by eexists].
    destruct (findFiles host "**/main.c" _ _) as [posixFiles | m]; [| by eexists].
    destruct (detect_platform host posixFiles) as [found | m]; [| by eexists].
    destruct (findFiles host "**/*.h" _ _) as [headerFiles | m]; [| by eexists].
    destruct (find_functions host (take 50 headerFiles) [] []) as [fns | m];
      [discriminate | by eexists].
Qed.

End Properties.

(** * The engine on concrete sessions *)

Section Runs.

Import Scenario.
#[local] Existing Instance AsciiOps.ops.

(** The three sessions of [Scenario] are the ones the participant
    reaches from its start, turn by turn. *)
Lemma scenario_reached :
  let p1 := fst (participant no_model (integrate "posix") 0 live activate) in
  let p2 := fst (participant no_model (say "ShmM_MapOwner") 2 live p1) in
  let p3 := fst (participant no_model (say "MyReader") 4 live p2) in
  objects p1 = [awaiting_memory] /\ objects p2 = [awaiting_dataset]
  /\ objects p3 = [awaiting_alternative].
Proof. vm_compute. repeat split. Qed.

(** C1, counterexample.  A session that waits for the dataset function
    gets a begin-integration directive with a known token: the step goes
    back to [memory], which is not one position forward.  The session is
    the one the participant holds after [/integrate posix] and a memory
    function. *)
Lemma integrate_restarts_later_step :
  let p1 := fst (participant no_model (integrate "posix") 0 live activate) in
  let p2 := fst (participant no_model (say "ShmM_MapOwner") 2 live p1) in
  let p3 := fst (participant no_model (integrate "autosar") 4 live p2) in
  objects p2 = [awaiting_dataset]
  /\ valid_input (integrate "autosar") awaiting_dataset = true
  /\ step awaiting_dataset = dataset
  /\ step (state_after no_model (integrate "autosar") live awaiting_dataset) = memory
  /\ one_forward (step awaiting_dataset)
       (step (state_after no_model (integrate "autosar") live awaiting_dataset)) = false
  /\ step <$> objects p3 = [memory].
Proof. vm_compute. repeat split. Qed.

(** The transitions on the sessions of [Scenario]. *)
Lemma step_transitions_witness :
  step (state_after no_model (say "   ") live awaiting_memory) = dataset
  /\ step (state_after no_model (integrate "autosar") live awaiting_dataset) = memory
  /\ step (state_after sv62_workspace (integrate "MotionWise") live stuck_complete) = memory
  /\ step (state_after no_model (integrate "motionwise") live fresh_state) = config.
Proof.
  split; [| split; [| split]].
  - apply (proj1 (step_transitions no_model (say "   ") live awaiting_memory));
      reflexivity.
  - edestruct (proj2 (step_transitions no_model (integrate "autosar") live
                        awaiting_dataset)) as [-> _]; reflexivity.
  - edestruct (proj2 (step_transitions sv62_workspace (integrate "MotionWise") live
                        stuck_complete)) as [-> _]; reflexivity.
  - edestruct (proj2 (step_transitions no_model (integrate "motionwise") live
                        fresh_state)) as [-> _]; reflexivity.
Defined.

(** C2, the input on which it fails.  The session waits for the
    configuration after [/integrate motionwise] on a workspace without
    one.  The reply [Constructor] is no number of the list and, in lower
    case, no name of the catalog, so it is to be turned down; but
    [constructor] is a member every object inherits, the test of the
    catalog finds it, and the reply is accepted: the session moves to
    [memory] with [constructor] as the configuration and the inherited
    function, no string, as the path.  The same reply once more is then
    recorded as the memory function. *)
Theorem unmatched_selection_accepted :
  let s := state_after no_model (integrate "motionwise") live fresh_state in
  let s' := state_after no_model (say "Constructor") live s in
  s = awaiting_config
  /\ own_property configMap (trim (prompt (say "Constructor"))) = None
  /\ own_property MOTIONWISE_PATHS (toLowerCase (trim (prompt (say "Constructor")))) = None
  /\ rejected (say "Constructor") s = true
  /\ config_accepted (trim (prompt (say "Constructor"))) = true
  /\ s' = set_step memory
            (set_integrationPath (Some (JInherited "constructor"))
               (set_motionwiseConfig (JStr "constructor") s))
  /\ step s = config /\ step s' = memory
  /\ motionwiseConfig s = None /\ motionwiseConfig s' = Some (JStr "constructor")
  /\ integrationPath s = None /\ integrationPath s' = Some (JInherited "constructor")
  /\ run_turns (repeated (say "Constructor") [(no_model, live); (no_model, live)]) s
     = set_step dataset (set_memoryFunction "Constructor" s').
Proof. vm_compute. repeat split. Qed.

(** C8, counterexample.  A text at the alternative step, on the session
    the participant holds after [/integrate posix] and two function
    names: the text is recorded, but the turn ends at [initial], which is
    not one position forward from [alternative]. *)
Lemma alternative_turn_ends_at_initial :
  let p1 := fst (participant no_model (integrate "posix") 0 live activate) in
  let p2 := fst (participant no_model (say "ShmM_MapOwner") 2 live p1) in
  let p3 := fst (participant no_model (say "MyReader") 4 live p2) in
  let p4 := fst (participant no_model (say "none") 6 live p3) in
  let s' := state_after no_model (say "none") live awaiting_alternative in
  objects p3 = [awaiting_alternative]
  /\ free_text (say "none") = true
  /\ step awaiting_alternative = alternative
  /\ alternativeFunction s' = Some "none"
  /\ step s' = initial
  /\ one_forward (step awaiting_alternative) (step s') = false
  /\ step <$> objects p4 = [initial].
Proof. vm_compute. repeat split. Qed.

(** A text of blanks at each capture step: the empty text is recorded.
    Without a model the generation returns, and the alternative turn ends
    at [initial]; with a cancelled request it throws, and the turn ends
    at [complete]. *)
Lemma capture_any_text_witness :
  free_text (say "   ") = true
  /\ trim "   " = EmptyString
  /\ memoryFunction (state_after no_model (say "   ") live awaiting_memory)
     = Some EmptyString
  /\ step (state_after no_model (say "   ") live awaiting_memory) = dataset
  /\ datasetFunction (state_after no_model (say "   ") live awaiting_dataset)
     = Some EmptyString
  /\ step (state_after no_model (say "   ") live awaiting_dataset) = alternative
  /\ alternativeFunction (state_after no_model (say "   ") live awaiting_alternative)
     = Some EmptyString
  /\ step (state_after no_model (say "   ") live awaiting_alternative) = initial
  /\ step (state_after with_model (say "   ") cancelled awaiting_alternative) = complete
  /\ memoryFunction (state_after no_model (say "   ") live awaiting_alternative)
     = Some "ShmM_MapOwner".
Proof.
  destruct (capture_any_text no_model (say "   ") live awaiting_memory)
    as (Hmemory & _); [reflexivity |].
  destruct (capture_any_text no_model (say "   ") live awaiting_dataset)
    as (_ & Hdataset & _); [reflexivity |].
  destruct (capture_any_text no_model (say "   ") live awaiting_alternative)
    as (_ & _ & Halternative & Hkept); [reflexivity |].
  destruct (capture_any_text with_model (say "   ") cancelled awaiting_alternative)
    as (_ & _ & Hthrown & _); [reflexivity |].
  destruct Hmemory as (Hm1 & Hm2 & _); [reflexivity |].
  destruct Hdataset as (Hd1 & Hd2 & _); [reflexivity |].
  destruct Halternative as (Ha1 & Ha2); [reflexivity |].
  destruct Hthrown as (_ & Ht2); [reflexivity |].
  destruct Hkept as (_ & _ & _ & Hk & _); [right; right; reflexivity |].
  split; [reflexivity |]. split; [reflexivity |].
  split; [exact Hm1 |]. split; [exact Hm2 |].
  split; [exact Hd1 |]. split; [exact Hd2 |].
  split; [exact Ha1 |]. split; [exact Ha2 |]. split; [exact Ht2 |].
  rewrite Hk; [reflexivity | discriminate].
Defined.

(** The token in mixed case, on a session that held the other platform. *)
Lemma motionwise_platform_posix_witness :
  toLowerCase (trim (prompt (integrate " MotionWise "))) = "motionwise"
  /\ platform (state_after sv62_workspace (integrate " MotionWise ") live
                 (set_platform autosar fresh_state)) = Some posix.
Proof.
  split; [reflexivity |].
  apply (motionwise_platform_posix sv62_workspace (integrate " MotionWise ") live
           (set_platform autosar fresh_state)); reflexivity.
Defined.


(** A cancelled generation, free text after it, and a new directive. *)
Lemma complete_until_new_directive_witness :
  state_after with_model (say "none") cancelled awaiting_alternative = stuck_complete
  /\ state_after with_model (say "hello?") live stuck_complete = stuck_complete
  /\ response_of with_model (say "hello?") live stuck_complete = []
  /\ step (state_after with_model (integrate "posix") live stuck_complete) = memory.
Proof.
  destruct (complete_until_new_directive with_model (say "none") cancelled
              awaiting_alternative) as (Hthrow & _).
  destruct (complete_until_new_directive with_model (say "hello?") live stuck_complete)
    as (_ & Hfree & _).
  destruct (complete_until_new_directive with_model (integrate "posix") live
              stuck_complete) as (_ & _ & _ & Hintegrate).
  split; [| split; [| split]].
  - apply (Hthrow eq_refl eq_refl "Canceled"). reflexivity.
  - apply Hfree; reflexivity.
  - apply Hfree; reflexivity.
  - edestruct Hintegrate as [Hstep | Hstep];
      [reflexivity | reflexivity | reflexivity | reflexivity | exact Hstep |].
    vm_compute in Hstep. discriminate Hstep.
Defined.

(** C5, counterexample.  The turn of the alternative step is cancelled
    and the model request is rejected for it.  The response ends with the
    error line, and the session is not the one from before the turn: it
    holds the text just given, and the step [complete]. *)
Lemma cancelled_turn_changes_session :
  let p1 := fst (participant with_model (integrate "posix") 0 live activate) in
  let p2 := fst (participant with_model (say "ShmM_MapOwner") 2 live p1) in
  let p3 := fst (participant with_model (say "MyReader") 4 live p2) in
  let p4 := fst (participant with_model (say "none") 6 cancelled p3) in
  objects p3 = [awaiting_alternative]
  /\ isCancellationRequested cancelled = true
  /\ last (response_of with_model (say "none") cancelled awaiting_alternative)
     = Some (nl +:+ nl +:+ "❌ Error: Canceled" +:+ nl)
  /\ state_after with_model (say "none") cancelled awaiting_alternative
     <> awaiting_alternative
  /\ alternativeFunction awaiting_alternative = None
  /\ alternativeFunction
       (state_after with_model (say "none") cancelled awaiting_alternative) = Some "none"
  /\ step awaiting_alternative = alternative
  /\ step (state_after with_model (say "none") cancelled awaiting_alternative) = complete
  /\ objects p4 = [stuck_complete].
Proof. vm_compute. repeat split. discriminate. Qed.

(** The writes of a cancelled turn on the sessions of [Scenario]. *)
Lemma cancelled_turn_keeps_writes_witness :
  step (state_after with_model (say "none") cancelled awaiting_alternative) = complete
  /\ alternativeFunction
       (state_after with_model (say "none") cancelled awaiting_alternative) = Some "none"
  /\ memoryFunction (state_after with_model (say "none") cancelled awaiting_alternative)
     = Some "ShmM_MapOwner"
  /\ handle_request with_model (say "MyReader") cancelled
       {| session := awaiting_dataset; stream := [] |}
     = handle_request with_model (say "MyReader") live
         {| session := awaiting_dataset; stream := [] |}.
Proof.
  destruct (cancelled_turn_keeps_writes with_model (say "none") cancelled
              awaiting_alternative) as (_ & Hwrites).
  destruct (Hwrites eq_refl eq_refl) as (Halt & Hstep & _ & _ & _ & _ & Hmem & _).
  split; [exact Hstep | split; [exact Halt | split; [exact Hmem |]]].
  apply (cancelled_turn_keeps_writes with_model (say "MyReader") cancelled awaiting_dataset).
  right. discriminate.
Defined.

(** C4, counterexample.  After the alternative step and a generation
    that returned, the step is [initial] again, and the platform, the
    path and the three function names of the finished session are all
    still in the session object. *)
Lemma completed_values_not_discarded :
  let p1 := fst (participant with_model (integrate "posix") 0 live activate) in
  let p2 := fst (participant with_model (say "ShmM_MapOwner") 2 live p1) in
  let p3 := fst (participant with_model (say "MyReader") 4 live p2) in
  let p4 := fst (participant with_model (say "none") 6 live p3) in
  let s' := state_after with_model (say "none") live awaiting_alternative in
  objects p3 = [awaiting_alternative]
  /\ generation_result with_model live
       (capture_alternative "none" awaiting_alternative) = Ok tt
  /\ objects p4 = [s']
  /\ step s' = initial
  /\ platform s' = Some posix
  /\ integrationPath s'
     = Some (JStr "1800-EcuIntegration/[PLATFORM]/core/development/dmiu")
  /\ memoryFunction s' = Some "ShmM_MapOwner"
  /\ datasetFunction s' = Some "MyReader"
  /\ alternativeFunction s' = Some "none"
  /\ s' <> fresh_state.
Proof. vm_compute. repeat split. discriminate. Qed.

(** The finished session of [Scenario] and the turns after it. *)
Lemma completed_values_kept_unread_witness :
  let s' := state_after with_model (say "none") live awaiting_alternative in
  memoryFunction s' = Some "ShmM_MapOwner"
  /\ responses [(with_model, integrate "autosar", live); (with_model, say "static", live)] s'
     = responses [(with_model, integrate "autosar", live); (with_model, say "static", live)]
         fresh_state.
Proof.
  intros s'.
  destruct (completed_values_kept_unread with_model (say "none") live awaiting_alternative)
    as (_ & (_ & _ & _ & _ & Hmem & _) & Hlater); [reflexivity .. |].
  split; [exact Hmem | apply Hlater].
Defined.

(** C3, counterexample.  A turn with one earlier message starts a
    session, which is registered under 2.  A turn of a new conversation,
    with no earlier message, makes its own session object and registers
    it under 1.  The next lookup, under 2, does not retrieve the object
    registered under 1: the older entry under 2 comes first. *)
Lemma stale_entry_comes_first :
  let p1 := fst (participant no_model (integrate "posix") 1 live activate) in
  let p2 := fst (participant no_model (say "hello") 0 live p1) in
  conversationStates p2 !! 1 = Some 1%nat
  /\ objects p2 !! 1%nat = Some fresh_state
  /\ snd (get_or_create p2 2) = 0%nat
  /\ objects p2 !! 0%nat = Some awaiting_memory
  /\ snd (get_or_create p2 2) <> 1%nat.
Proof. vm_compute. repeat split. discriminate. Qed.

(** The lookup after the first turn of a conversation. *)
Lemma get_or_create_spec_witness :
  let p1 := fst (participant no_model (integrate "posix") 0 live activate) in
  conversationStates p1 !! 1 = Some 0%nat
  /\ snd (get_or_create p1 1) = 0%nat
  /\ snd (get_or_create p1 2) = 0%nat
  /\ snd (get_or_create p1 7) = 1%nat
  /\ find_state (<[5 := 3%nat]> (conversationStates p1)) (5 + 1) = Some 3%nat.
Proof.
  intros p1.
  destruct (get_or_create_spec p1 1) as (Hexact & _).
  destruct (get_or_create_spec p1 2) as (_ & Hprevious & _).
  destruct (get_or_create_spec p1 7) as (_ & _ & Hfresh & _).
  destruct (get_or_create_spec p1 5) as (_ & _ & _ & _ & _ & Hnext).
  split; [reflexivity |]. split; [| split; [| split]].
  - apply (Hexact 0%nat). reflexivity.
  - apply (Hprevious eq_refl 0%nat). reflexivity.
  - apply (Hfresh eq_refl eq_refl).
  - apply Hnext. reflexivity.
Defined.

(** ** The analysis and the rest of the engine on concrete workspaces *)

(** The SV62 workspace: two searches find nothing, the third finds a
    file. *)
Lemma detection_first_match_witness :
  exists analysis,
    analyzeWorkspace sv62_workspace = Ok analysis
    /\ detectedMotionWiseConfig analysis = Some sv62.
Proof.
  eexists. split; [reflexivity |].
  edestruct (detection_first_match sv62_workspace
               [("**/1800-ecu-int-rdb2-cp-a/**", cp_rdb2);
                ("**/1800-ecu-int-rdb3-cp-a/**", cp_rdb3)]
               [("**/1710-handwritten-config-s324sdv/**", s324sdv);
                ("**/1710-handwritten-config-ch63_2/**", ch63_2)]
               "**/1710-handwritten-config-sv62/**" sv62) as [_ Hreported].
  - reflexivity.
  - repeat constructor.
  - reflexivity.
  - apply Hreported. reflexivity.
Defined.

Lemma detected_configuration_skips_selection_witness :
  state_after sv62_workspace (integrate "motionwise") live fresh_state
  = set_step memory
      (set_integrationPath
         (Some (JStr "1700-Configuration/RDB2/1710-handwritten-config-sv62/core/development/dmiu"))
         (set_motionwiseConfig (JStr "sv62") (set_platform posix fresh_state))).
Proof.
  edestruct (detected_configuration_skips_selection sv62_workspace
               (integrate "motionwise") live fresh_state)
    as (_ & _ & path & Hpath & Hstate); [reflexivity .. |].
  rewrite Hstate. vm_compute in Hpath. by injection Hpath as <-.
Defined.

Lemma function_lists_witness :
  exists analysis,
    analyzeWorkspace posix_workspace = Ok analysis
    /\ memoryFunctions analysis = ["ShmM_MapOwner"]
    /\ datasetFunctions analysis = ["Per_DS_ReadDSElementDMIU"].
Proof.
  eexists. split; [reflexivity |].
  edestruct (function_lists posix_workspace) as (Hmem & Hds & _);
    [reflexivity | reflexivity |].
  split; [rewrite Hmem | rewrite Hds]; reflexivity.
Defined.

Lemma analysis_returns_witness :
  exists analysis,
    analyzeWorkspace posix_workspace = Ok analysis
    /\ existingIntegrationFiles analysis
       = ["1800-EcuIntegration/RDB2/core/development/dmiu/src/dmiu_integration.c"].
Proof.
  edestruct (analysis_returns posix_workspace) as (analysis & Hanalysis & Hfiles).
  - reflexivity.
  - repeat constructor; by eexists.
  - reflexivity.
  - repeat constructor. by eexists.
  - reflexivity.
  - repeat constructor; by eexists.
  - exists analysis. split; [exact Hanalysis |]. rewrite Hfiles. reflexivity.
Defined.

Lemma unreadable_header_fatal_witness :
  analyzeWorkspace locked_workspace = Throw "EACCES".
Proof.
  eapply (unreadable_header_fatal locked_workspace _ _ _ ["/ws/api/shm.h"] []
            _ _ "/ws/api/locked.h").
  - reflexivity.
  - reflexivity.
  - reflexivity.
  - reflexivity.
  - reflexivity.
  - reflexivity.
  - repeat constructor. by eexists.
  - reflexivity.
Defined.

(** The third entry point cannot be read, and the analysis returns. *)
Lemma platform_detection_witness :
  readFile three_entry_points "/ws/vendor/main.c" = Throw "EACCES"
  /\ detect_platform three_entry_points ["/ws/vendor/main.c"] = Throw "EACCES"
  /\ exists analysis,
       analyzeWorkspace three_entry_points = Ok analysis
       /\ detectedPlatform analysis = Some posix.
Proof.
  split; [reflexivity | split; [reflexivity |]].
  destruct (platform_detection three_entry_points) as [_ Hfirst].
  edestruct (Hfirst [] [] ["/ws/tools/main.c"] ["/ws/vendor/main.c"] "/ws/src/main.c")
    as [_ Hanalysis].
  - reflexivity.
  - repeat constructor; by eexists.
  - reflexivity.
  - repeat constructor. by eexists.
  - reflexivity.
  - reflexivity.
  - constructor.
  - exact Hanalysis.
Defined.

Lemma analysis_failure_turn_witness :
  response_of locked_workspace validate live awaiting_dataset
  = [nl +:+ nl +:+ "❌ Error: EACCES" +:+ nl]
  /\ state_after locked_workspace (integrate "autosar") live fresh_state
     = set_platform autosar fresh_state.
Proof.
  destruct (analysis_failure_turn locked_workspace validate live awaiting_dataset "EACCES")
    as [Hvalidate _]; [reflexivity |].
  destruct (analysis_failure_turn locked_workspace (integrate "autosar") live fresh_state
              "EACCES") as [_ Hintegrate]; [reflexivity |].
  split.
  - apply Hvalidate. reflexivity.
  - apply Hintegrate; reflexivity.
Defined.

Lemma validate_lists_files_witness :
  response_of posix_workspace validate live fresh_state
  = [ "## DMIU Integration Validation" +:+ nl +:+ nl;
      "### Found Integration Files:" +:+ nl +:+ nl;
      "✅ 1800-EcuIntegration/RDB2/core/development/dmiu/src/dmiu_integration.c" +:+ nl ].
Proof.
  edestruct (validate_lists_files posix_workspace validate live fresh_state)
    as [_ Hresponse]; [reflexivity | reflexivity | reflexivity |].
  rewrite Hresponse. reflexivity.
Defined.

Lemma adapter_stateless_witness :
  state_after no_model (adapter "  ") live awaiting_dataset = awaiting_dataset
  /\ response_of no_model (adapter "  ") live awaiting_dataset
     = [ "Please provide a function name." +:+ nl +:+ nl;
         "**Example:** `@dfu /adapter MyDatasetFunction`" +:+ nl ].
Proof.
  destruct (adapter_stateless no_model (adapter "  ") live awaiting_dataset)
    as (Hstate & Hresponse & _); [reflexivity |].
  split; [exact Hstate | rewrite Hresponse; reflexivity].
Defined.

Lemma numbered_choice_witness :
  state_after no_model (say " 4 ") live awaiting_config
  = set_step memory
      (set_integrationPath
         (Some (JStr "1700-Configuration/RDB2/1710-handwritten-config-s324sdv/core/development/dmiu"))
         (set_motionwiseConfig (JStr "s324sdv") awaiting_config)).
Proof.
  edestruct (numbered_choice no_model (say " 4 ") live awaiting_config)
    as (c & path & _ & _ & Hpath & _ & Hstate); [reflexivity .. |].
  rewrite Hstate. vm_compute in Hpath. by injection Hpath as <-.
Defined.

Lemma named_choice_witness :
  state_after no_model (say "Unknown") live awaiting_config
  = set_step memory
      (set_integrationPath
         (Some (JStr "1800-EcuIntegration/[PLATFORM]/core/development/dmiu"))
         (set_motionwiseConfig (JStr "unknown") awaiting_config)).
Proof.
  edestruct (named_choice no_model (say "Unknown") live awaiting_config unknown)
    as (path & Hpath & _ & Hstate); [reflexivity .. |].
  rewrite Hstate. vm_compute in Hpath. by injection Hpath as <-.
Defined.

(** [Constructor] is accepted, [constructor] is not. *)
Lemma accepted_selection_kinds_witness :
  config_accepted "Constructor" = true
  /\ get_property MOTIONWISE_PATHS (js_to_string (selectedConfig "Constructor"))
     = Some (JInherited "constructor")
  /\ config_accepted "constructor" = false.
Proof.
  destruct (accepted_selection_kinds "Constructor") as [Hkinds _].
  destruct (accepted_selection_kinds "constructor") as [_ Hexact].
  split; [reflexivity | split].
  - destruct (Hkinds eq_refl) as [(c & path & Hc & _) | (_ & _ & Hpath)];
      [destruct c; discriminate Hc | exact Hpath].
  - apply Hexact. vm_compute. tauto.
Defined.

Lemma detection_agrees_with_choice_witness :
  state_after with_model (say "3") cancelled
    (state_after no_model (integrate "motionwise") live fresh_state)
  = state_after sv62_workspace (integrate "motionwise") live fresh_state.
Proof.
  eapply (detection_agrees_with_choice sv62_workspace no_model with_model
            (integrate "motionwise") (say "3") live cancelled fresh_state _ _ sv62);
    reflexivity.
Defined.

Lemma participant_frame_witness :
  let p1 := fst (participant no_model (integrate "posix") 1 live activate) in
  let p2 := fst (participant no_model (say "hello") 0 live p1) in
  objects p2 !! 0%nat = objects p1 !! 0%nat
  /\ conversationStates p2 !! 2 = conversationStates p1 !! 2.
Proof.
  intros p1 p2.
  assert (Hwf : well_formed p1)
    by (apply participant_well_formed, well_formed_activate).
  destruct (participant_frame no_model (say "hello") 0 live p1 Hwf)
    as (_ & Hkeys & Hobjects & _).
  split.
  - apply Hobjects; vm_compute; [discriminate | lia].
  - apply Hkeys. discriminate.
Defined.

Lemma new_conversation_fresh_witness :
  let p1 := fst (participant no_model (integrate "posix") 0 live activate) in
  snd (get_or_create p1 0) = 1%nat
  /\ objects (fst (get_or_create p1 0)) !! 1%nat = Some fresh_state.
Proof.
  intros p1.
  assert (Hkeys : keys_positive p1).
  { apply (new_conversation_fresh no_model (integrate "posix") 0 live activate).
    apply keys_positive_activate. }
  destruct (new_conversation_fresh no_model (say "hello") 0 live p1 Hkeys)
    as (_ & Hobject & Hlookup & _).
  split; [exact Hobject | exact Hlookup].
Defined.

Lemma integrate_restart_witness :
  let s' := state_after no_model (integrate "autosar") live stuck_complete in
  memoryFunction s' = Some "ShmM_MapOwner"
  /\ state_after no_model (integrate "autosar") cancelled s' = s'.
Proof.
  intros s'.
  destruct (integrate_restart no_model (integrate "autosar") live cancelled stuck_complete)
    as (Hmem & _ & _ & Hagain); [reflexivity |].
  split; [exact Hmem | exact Hagain].
Defined.

Lemma conversation_run_witness :
  objects (fst (converse [(no_model, integrate "posix", live);
                          (no_model, say "ShmM_MapOwner", live);
                          (no_model, say "MyReader", live)] 0 activate))
  = [awaiting_alternative].
Proof.
  destruct (conversation_run [(no_model, integrate "posix", live);
                              (no_model, say "ShmM_MapOwner", live);
                              (no_model, say "MyReader", live)]) as [_ Hobjects].
  rewrite Hobjects by discriminate. reflexivity.
Defined.

Lemma model_answer_streamed_witness :
  response_of with_flaky_model (say "none") live awaiting_alternative
  = [ "✅ Alternative: `none`" +:+ nl +:+ nl;
      "## Generating Integration Files..." +:+ nl +:+ nl;
      "/* dmiu_integration.h */";
      "#pragma once";
      nl +:+ nl +:+ "❌ Error: socket hang up" +:+ nl ]
  /\ step (state_after with_flaky_model (say "none") live awaiting_alternative) = complete.
Proof.
  edestruct (model_answer_streamed with_flaky_model (say "none") live awaiting_alternative)
    as [Hresponse Hstep]; [reflexivity .. |].
  split; [rewrite Hresponse | rewrite Hstep]; reflexivity.
Defined.

Lemma basic_directive_witness :
  basic_state_after locked_workspace (integrate "autosar") live fresh_state
  = set_step memory (set_platform autosar fresh_state)
  /\ basic_response_of locked_workspace (integrate "autosar") live fresh_state
     = [nl +:+ nl +:+ "❌ Error: EACCES" +:+ nl]
  /\ basic_state_after no_model (integrate "motionwise") live fresh_state = fresh_state.
Proof.
  destruct (basic_directive locked_workspace (integrate "autosar") live fresh_state)
    as [Hvalid _]; [reflexivity |].
  destruct (basic_directive no_model (integrate "motionwise") live fresh_state)
    as [_ Hother]; [reflexivity |].
  destruct Hvalid as [Hstate Hresponse]; [by right |].
  split; [exact Hstate | split].
  - apply Hresponse. reflexivity.
  - apply Hother; discriminate.
Defined.

Lemma variants_agree_witness :
  state_after no_model (say "ShmM_MapOwner") live awaiting_memory
  = basic_state_after no_model (say "ShmM_MapOwner") live awaiting_memory
  /\ state_after no_model (integrate "posix") live fresh_state
     = set_integrationPath
         (Some (JStr "1800-EcuIntegration/[PLATFORM]/core/development/dmiu"))
         (basic_state_after no_model (integrate "posix") live fresh_state).
Proof.
  destruct (variants_agree no_model (say "ShmM_MapOwner") live awaiting_memory)
    as [Hflow _].
  destruct (variants_agree no_model (integrate "posix") live fresh_state)
    as [_ Hdirective].
  split.
  - apply Hflow; [reflexivity | discriminate | discriminate].
  - eapply Hdirective; [reflexivity | by left | reflexivity].
Defined.

Lemma basic_analysis_witness :
  exists analysis,
    Basic.analyzeWorkspace posix_workspace = Ok analysis
    /\ memoryFunctions analysis = ["ShmM_MapOwner"]
    /\ exists message, analyzeWorkspace locked_workspace = Throw message.
Proof.
  destruct (basic_analysis posix_workspace) as [Hreturns _].
  destruct (basic_analysis locked_workspace) as [_ Hthrows].
  eexists. split; [apply Hreturns; reflexivity |].
  split; [reflexivity |]. apply (Hthrows "EACCES"). reflexivity.
Defined.

(** An unknown token and a selection that matches nothing leave the
    session as it was; the selection [__PROTO__] is accepted. *)
Lemma unmatched_input_outcome_witness :
  rejected (integrate "windows") awaiting_dataset = true
  /\ state_after no_model (integrate "windows") live awaiting_dataset = awaiting_dataset
  /\ rejected (say "rdb9") awaiting_config = true
  /\ run_turns (repeated (say "rdb9") [(no_model, live); (with_model, cancelled)])
       awaiting_config = awaiting_config
  /\ rejected (say "__PROTO__") awaiting_config = true
  /\ state_after no_model (say "__PROTO__") live awaiting_config
     = set_step memory
         (set_integrationPath (Some (JInherited "__proto__"))
            (set_motionwiseConfig (JStr "__proto__") awaiting_config)).
Proof.
  destruct (unmatched_input_outcome (integrate "windows") awaiting_dataset)
    as [Htoken _]; [reflexivity |].
  destruct (unmatched_input_outcome (say "rdb9") awaiting_config)
    as [Hselection _]; [reflexivity |].
  destruct (unmatched_input_outcome (say "__PROTO__") awaiting_config)
    as [_ Hinherited]; [reflexivity |].
  destruct Htoken as [Hone _]; [left; reflexivity |].
  destruct Hselection as [_ Hmany]; [right; right; reflexivity |].
  split; [reflexivity |]. split; [apply Hone |].
  split; [reflexivity |]. split; [apply Hmany |].
  split; [reflexivity |]. apply Hinherited; reflexivity.
Defined.

End Runs.
